(** * ProspectLens: the qualification request lifecycle

    A shallow embedding of the front end of ProspectLens:
    - [QualificationForm] (form state, requirement edits, tab navigation,
      [handleSubmit], [isFormValid]);
    - [ResultsPanel] ([getScoreLabel] and the headline that shows either
      the score band or the failure label; the colour helpers and what
      the panel renders);
    - [App] (the result and loading cells, and which screen is shown);
    - the record types of [types.ts].

    JavaScript strings are sequences of UTF-16 code units, JavaScript
    numbers are IEEE 754 binary64 values; both are modelled as such. *)

From Stdlib Require Import ZArith NArith Lia Ascii String.
From Stdlib Require Import Floats.SpecFloat Floats.PrimFloat Floats.FloatOps.
From stdpp Require Import base decidable option list.

Open Scope list_scope.

(* ================================================================== *)
(** * JavaScript strings *)
(* ================================================================== *)

Module JsString.

(** A string is a finite sequence of 16-bit code units. *)
Definition code_unit := N.
Definition jsstring := list code_unit.

(** String literals of the source are ASCII; [lit] reads one. *)
Definition lit (s : string) : jsstring :=
  N_of_ascii <$> list_ascii_of_string s.

(** The code units removed by [String.prototype.trim]: ECMAScript's
    WhiteSpace (TAB, VT, FF, SP, NBSP, ZWNBSP and the Unicode space
    separators) and LineTerminator (LF, CR, LS, PS). *)
Definition isWhiteSpace (c : code_unit) : bool :=
  ((9 <=? c) && (c <=? 13)            (* TAB LF VT FF CR *)
   || (c =? 32)                       (* SP *)
   || (c =? 160)                      (* NBSP *)
   || (c =? 5760)                     (* U+1680 *)
   || ((8192 <=? c) && (c <=? 8202))  (* U+2000 .. U+200A *)
   || (c =? 8232) || (c =? 8233)      (* LS PS *)
   || (c =? 8239) || (c =? 8287)      (* U+202F U+205F *)
   || (c =? 12288)                    (* U+3000 *)
   || (c =? 65279))%N.                (* U+FEFF *)

Fixpoint trimStart (s : jsstring) : jsstring :=
  match s with
  | [] => []
  | c :: s' => if isWhiteSpace c then trimStart s' else s
  end.

Definition trimEnd (s : jsstring) : jsstring :=
  reverse (trimStart (reverse s)).

(** [s.trim()] *)
Definition trim (s : jsstring) : jsstring := trimEnd (trimStart s).

(** ToBoolean on a string: the empty string is the only falsy one. *)
Definition truthy (s : jsstring) : bool :=
  match s with [] => false | _ :: _ => true end.

(** [a !== b] on strings. *)
Definition strict_ne (a b : jsstring) : bool := bool_decide (a ≠ b).

(** A string made of white space only (or empty). *)
Definition blank (s : jsstring) : Prop := Forall (fun c => isWhiteSpace c = true) s.

(** [sub] occurs somewhere inside [s]. *)
Definition includes (s sub : jsstring) : Prop :=
  exists pre post, s = pre ++ sub ++ post.

(** Decimal digits, most significant first. *)
Fixpoint digits (d : Decimal.uint) : jsstring :=
  match d with
  | Decimal.Nil => []
  | Decimal.D0 d => 48%N :: digits d
  | Decimal.D1 d => 49%N :: digits d
  | Decimal.D2 d => 50%N :: digits d
  | Decimal.D3 d => 51%N :: digits d
  | Decimal.D4 d => 52%N :: digits d
  | Decimal.D5 d => 53%N :: digits d
  | Decimal.D6 d => 54%N :: digits d
  | Decimal.D7 d => 55%N :: digits d
  | Decimal.D8 d => 56%N :: digits d
  | Decimal.D9 d => 57%N :: digits d
  end.

(** [`${n}`] for a natural number [n] (an HTTP status): its decimal
    numeral. *)
Definition ofN (n : N) : jsstring := digits (N.to_uint n).

End JsString.
Import JsString.

(* ================================================================== *)
(** * JavaScript numbers *)
(* ================================================================== *)

Module JsNumber.

(** A number is a binary64 value: a zero, an infinity, NaN, or
    [(-1)^s * m * 2^e]. *)
Definition number := spec_float.

Definition num_0 : number := S754_zero false.
Definition num_4 : number := S754_finite false 4503599627370496 (-50).
Definition num_6 : number := S754_finite false 6755399441055744 (-50).
Definition num_8 : number := S754_finite false 4503599627370496 (-49).
(** The doubles written [3.9], [7.9] and [9] in decimal. *)
Definition num_3_9 : number := S754_finite false 8782019273372467 (-51).
Definition num_7_9 : number := S754_finite false 8894609264056730 (-50).
Definition num_9 : number := S754_finite false 5066549580791808 (-49).

(** [a >= b], [a < b], [a <= b]: false as soon as one side is NaN. *)
Definition ge (a b : number) : bool := SFleb b a.
Definition lt (a b : number) : bool := SFltb a b.
Definition le (a b : number) : bool := SFleb a b.

(** ToBoolean on a number: zeros and NaN are falsy. *)
Definition truthy (a : number) : bool :=
  match a with
  | S754_zero _ | S754_nan => false
  | _ => true
  end.

(** [a || b] on numbers. *)
Definition or_else (a b : number) : number := if truthy a then a else b.

End JsNumber.
Import JsNumber.

(* ================================================================== *)
(** * types.ts *)
(* ================================================================== *)

Record EventDetails := mkEventDetails {
  name : jsstring;
  type : jsstring;
  requirements : list jsstring;
  audience : jsstring;
  format : jsstring
}.

Record InformationSource := mkInformationSource {
  query : jsstring;
  source : jsstring;
  found_existing : bool
}.

(** [error?: string] is an optional property. *)
Record QualificationResult := mkQualificationResult {
  person_name : jsstring;
  qualification_score : number;
  qualification_reasoning : jsstring;
  searches_performed : number;
  information_sources : list InformationSource;
  timestamp : jsstring;
  error : option jsstring
}.

(* ================================================================== *)
(** * The effects of an event handler *)
(* ================================================================== *)

Module Async.

(** What a [catch] clause can receive: an instance of [Error], with its
    [message], or any other value. *)
Inductive thrown :=
  | JsError (message : jsstring)
  | NotAnError.

(** How an awaited computation ends. *)
Inductive completion (A : Type) :=
  | Normal (a : A)
  | Throw (t : thrown).
Arguments Normal {A} a.
Arguments Throw {A} t.

(** The object given to [JSON.stringify] for the request body: the URL
    form [{ person_name, event_url }] or the manual form
    [{ person_name, event_details }]. *)
Inductive json_body :=
  | Body_url (person_name event_url : jsstring)
  | Body_details (person_name : jsstring) (event_details : EventDetails).

(** The arguments of one [fetch] call. *)
Record request := mkRequest {
  url : jsstring;
  method : jsstring;
  headers : list (jsstring * jsstring);
  body : json_body
}.

(** A [Response]: its status, and what awaiting [response.json()]
    gives. The handler passes the parsed body to [onResult] as a
    [QualificationResult] without inspecting it. *)
Record Response := mkResponse {
  status : N;
  json_result : completion QualificationResult
}.

(** [response.ok]: the status is in the range 200 to 299. *)
Definition ok (r : Response) : bool :=
  ((200 <=? status r) && (status r <=? 299))%N.

(** Everything [handleSubmit] does that can be observed from outside,
    in the order it happens. *)
Inductive event :=
  | PreventDefault
  | OnLoadingChange (loading : bool)
  | Fetch (req : request)
  | ConsoleError (label : jsstring) (t : thrown)
  | OnResult (result : QualificationResult).

(** The surroundings of one submission: how the service answers a
    request (the promise of [fetch] resolves with a response or
    rejects), and what [new Date().toISOString()] reads. *)
Record world := mkWorld {
  network : request -> completion Response;
  clock : jsstring
}.

(** A computation logs events and completes normally or abruptly. *)
Definition M (A : Type) : Type := world -> list event * completion A.

Definition ret {A} (a : A) : M A := fun _ => ([], Normal a).

Definition bind {A B} (m : M A) (k : A -> M B) : M B := fun w =>
  match m w with
  | (tr, Normal a) => let '(tr', c) := k a w in (tr ++ tr', c)
  | (tr, Throw t) => (tr, Throw t)
  end.

Definition throw {A} (t : thrown) : M A := fun _ => ([], Throw t).

Definition emit (e : event) : M unit := fun _ => ([e], Normal tt).

(** [await fetch(url, init)] *)
Definition fetch (req : request) : M Response :=
  fun w => ([Fetch req], network w req).

(** [await response.json()] *)
Definition json (r : Response) : M QualificationResult :=
  fun _ => ([], json_result r).

(** [new Date().toISOString()] *)
Definition toISOString_now : M jsstring := fun w => ([], Normal (clock w)).

(** [try { body } catch (error) { handler } finally { fin }] *)
Definition try_catch_finally {A} (body : M A) (handler : thrown -> M A)
    (fin : M unit) : M A := fun w =>
  let '(tr1, c1) := body w in
  let '(tr2, c2) :=
    match c1 with
    | Normal a => ([], Normal a)
    | Throw t => handler t w
    end in
  let '(tr3, c3) := fin w in
  (tr1 ++ tr2 ++ tr3,
   match c3 with
   | Normal _ => c2
   | Throw t => Throw t
   end).

End Async.
Import Async.

Declare Scope async_scope.
Delimit Scope async_scope with async.
Notation "x <- m ;; k" := (bind m (fun x => k))
  (at level 100, m at next level, right associativity) : async_scope.
Notation "m ;; k" := (bind m (fun _ => k))
  (at level 100, right associativity) : async_scope.

(* ================================================================== *)
(** * QualificationForm *)
(* ================================================================== *)

Module QualificationForm.

(** The five [useState] cells of the component. *)
Record FormState := mkFormState {
  personName : jsstring;
  eventUrl : jsstring;
  useManualDetails : bool;
  eventDetails : EventDetails;
  activeTab : jsstring
}.

Definition initial : FormState :=
  {| personName := [];
     eventUrl := [];
     useManualDetails := false;
     eventDetails :=
       {| name := []; type := []; requirements := [[]];
          audience := []; format := [] |};
     activeTab := lit "person" |}.

(** ** Requirement edits (the updaters given to [setEventDetails]) *)

(** [l.filter((x, i) => p(x, i))], with [i] counted from [start]. *)
Fixpoint filter_from {A} (p : A -> nat -> bool) (start : nat) (l : list A)
    : list A :=
  match l with
  | [] => []
  | x :: l' =>
      if p x start then x :: filter_from p (S start) l'
      else filter_from p (S start) l'
  end.

Definition filter_index {A} (p : A -> nat -> bool) (l : list A) : list A :=
  filter_from p 0 l.

Definition addRequirement (prev : EventDetails) : EventDetails :=
  {| name := name prev; type := type prev;
     requirements := requirements prev ++ [[]];
     audience := audience prev; format := format prev |}.

Definition removeRequirement (index : nat) (prev : EventDetails)
    : EventDetails :=
  {| name := name prev; type := type prev;
     requirements :=
       filter_index (fun _ i => negb (i =? index)) (requirements prev);
     audience := audience prev; format := format prev |}.

Definition updateRequirement (index : nat) (value : jsstring)
    (prev : EventDetails) : EventDetails :=
  {| name := name prev; type := type prev;
     requirements :=
       imap (fun i req => if i =? index then value else req)
            (requirements prev);
     audience := audience prev; format := format prev |}.

(** ** Validity *)

Definition isFormValid (st : FormState) : bool :=
  strict_ne (trim (personName st)) []
  && (if useManualDetails st
      then strict_ne (trim (name (eventDetails st))) []
      else strict_ne (trim (eventUrl st)) []).

(** ** Submission *)

Definition base : jsstring := lit "http://localhost:8000".

Definition json_headers : list (jsstring * jsstring) :=
  [(lit "Content-Type", lit "application/json")].

(** [new Error(...).message] when the response is not ok. *)
Definition http_error_message (status : N) : jsstring :=
  lit "HTTP error! status: " ++ ofN status.

(** [error instanceof Error ? error.message : 'Unknown error'] *)
Definition message_of (error : thrown) : jsstring :=
  match error with
  | JsError message => message
  | NotAnError => lit "Unknown error"
  end.

Local Open Scope async_scope.

Definition handleSubmit (st : FormState) : M unit :=
  emit PreventDefault ;;
  if negb (JsString.truthy (trim (personName st))) then ret tt else
  if useManualDetails st
     && negb (JsString.truthy (trim (name (eventDetails st))))
  then ret tt else
  if negb (useManualDetails st)
     && negb (JsString.truthy (trim (eventUrl st)))
  then ret tt else
  emit (OnLoadingChange true) ;;
  try_catch_finally
    (response <-
       (if useManualDetails st then
          fetch
            {| url := base ++ lit "/qualify";
               method := lit "POST";
               headers := json_headers;
               body :=
                 Body_details (personName st)
                   {| name := name (eventDetails st);
                      type := type (eventDetails st);
                      requirements :=
                        filter (fun req => trim req ≠ [])
                               (requirements (eventDetails st));
                      audience := audience (eventDetails st);
                      format := format (eventDetails st) |} |}
        else
          fetch
            {| url := base ++ lit "/qualify-from-url";
               method := lit "POST";
               headers := json_headers;
               body := Body_url (personName st) (eventUrl st) |}) ;;
     if negb (ok response)
     then throw (JsError (http_error_message (status response)))
     else
       result <- json response ;;
       emit (OnResult result))
    (fun error =>
       emit (ConsoleError (lit "Error:") error) ;;
       now <- toISOString_now ;;
       emit (OnResult
         {| person_name := personName st;
            qualification_score := num_0;
            qualification_reasoning :=
              lit "Error occurred: " ++ message_of error;
            searches_performed := num_0;
            information_sources := [];
            timestamp := now;
            error := Some (message_of error) |}))
    (emit (OnLoadingChange false)).

Local Close Scope async_scope.

(** ** User actions

    One constructor per handler wired in the JSX. [SelectTab v] is the
    tab list reporting a click on the trigger of value [v] through
    [onValueChange]. *)
Inductive action :=
  | ChangePersonName (v : jsstring)
  | ChangeEventUrl (v : jsstring)
  | ToggleManualDetails
  | ChangeName (v : jsstring)
  | ChangeType (v : jsstring)
  | ChangeAudience (v : jsstring)
  | ChangeFormat (v : jsstring)
  | AddRequirement
  | RemoveRequirement (index : nat)
  | UpdateRequirement (index : nat) (value : jsstring)
  | ClickNext
  | ClickBack
  | SelectTab (v : jsstring).

Definition with_details (f : EventDetails -> EventDetails) (st : FormState)
    : FormState :=
  {| personName := personName st; eventUrl := eventUrl st;
     useManualDetails := useManualDetails st;
     eventDetails := f (eventDetails st);
     activeTab := activeTab st |}.

Definition setActiveTab (v : jsstring) (st : FormState) : FormState :=
  {| personName := personName st; eventUrl := eventUrl st;
     useManualDetails := useManualDetails st;
     eventDetails := eventDetails st;
     activeTab := v |}.

(** The handler of each action. *)
Definition handle (a : action) (st : FormState) : FormState :=
  match a with
  | ChangePersonName v =>
      {| personName := v; eventUrl := eventUrl st;
         useManualDetails := useManualDetails st;
         eventDetails := eventDetails st; activeTab := activeTab st |}
  | ChangeEventUrl v =>
      {| personName := personName st; eventUrl := v;
         useManualDetails := useManualDetails st;
         eventDetails := eventDetails st; activeTab := activeTab st |}
  | ToggleManualDetails =>
      {| personName := personName st; eventUrl := eventUrl st;
         useManualDetails := negb (useManualDetails st);
         eventDetails := eventDetails st; activeTab := activeTab st |}
  | ChangeName v =>
      with_details (fun prev =>
        {| name := v; type := type prev; requirements := requirements prev;
           audience := audience prev; format := format prev |}) st
  | ChangeType v =>
      with_details (fun prev =>
        {| name := name prev; type := v; requirements := requirements prev;
           audience := audience prev; format := format prev |}) st
  | ChangeAudience v =>
      with_details (fun prev =>
        {| name := name prev; type := type prev;
           requirements := requirements prev;
           audience := v; format := format prev |}) st
  | ChangeFormat v =>
      with_details (fun prev =>
        {| name := name prev; type := type prev;
           requirements := requirements prev;
           audience := audience prev; format := v |}) st
  | AddRequirement => with_details addRequirement st
  | RemoveRequirement index => with_details (removeRequirement index) st
  | UpdateRequirement index value =>
      with_details (updateRequirement index value) st
  | ClickNext => setActiveTab (lit "event") st
  | ClickBack => setActiveTab (lit "person") st
  | SelectTab v => setActiveTab v st
  end.

(** [disabled={!personName.trim()}] on the [Next] button. *)
Definition next_disabled (st : FormState) : bool :=
  negb (JsString.truthy (trim (personName st))).

(** [disabled={!isFormValid}] on the submit button. *)
Definition submit_disabled (st : FormState) : bool := negb (isFormValid st).

(** Whether the control of an action is rendered and enabled, as far as
    the JSX of the form decides it: the URL input is rendered in URL
    mode, the manual inputs in manual mode, one textarea per
    requirement, a remove button per requirement when there are at
    least two, [Next] unless the trimmed person name is empty; the two
    tab triggers carry no condition. *)
Definition available (a : action) (st : FormState) : bool :=
  match a with
  | ChangePersonName _ => true
  | ChangeEventUrl _ => negb (useManualDetails st)
  | ToggleManualDetails => true
  | ChangeName _ | ChangeType _ | ChangeAudience _ | ChangeFormat _
  | AddRequirement => useManualDetails st
  | RemoveRequirement index =>
      useManualDetails st
      && (index <? length (requirements (eventDetails st)))
      && (1 <? length (requirements (eventDetails st)))
  | UpdateRequirement index _ =>
      useManualDetails st
      && (index <? length (requirements (eventDetails st)))
  | ClickNext => negb (next_disabled st)
  | ClickBack => true
  | SelectTab v => bool_decide (v = lit "person" \/ v = lit "event")
  end.

(** One user action: it has an effect only through a control that is
    there. *)
Definition step (st : FormState) (a : action) : FormState :=
  if available a st then handle a st else st.

Definition run (st : FormState) (actions : list action) : FormState :=
  foldl step st actions.

(** The states the form can be in. *)
Inductive reachable : FormState -> Prop :=
  | reachable_initial : reachable initial
  | reachable_step st a : reachable st -> reachable (step st a).

End QualificationForm.
Import QualificationForm.

(* ================================================================== *)
(** * ResultsPanel *)
(* ================================================================== *)

Module ResultsPanel.

Definition getScoreLabel (score : number) : jsstring :=
  if ge score num_8 then lit "Highly Qualified"
  else if ge score num_6 then lit "Well Qualified"
  else if ge score num_4 then lit "Minimally Qualified"
  else lit "Not Qualified".

(** [const score = result.qualification_score || 0] *)
Definition score (result : QualificationResult) : number :=
  or_else (qualification_score result) num_0.

(** [const hasError = result.error], read as a condition: an absent
    property and the empty string are both falsy. *)
Definition hasError (result : QualificationResult) : bool :=
  match error result with
  | None => false
  | Some e => JsString.truthy e
  end.

(** The heading under the score circle. *)
Definition heading (result : QualificationResult) : jsstring :=
  if hasError result then lit "Analysis Failed"
  else getScoreLabel (score result).

(** The caption inside the score circle. *)
Definition caption (result : QualificationResult) : jsstring :=
  if hasError result then lit "Error" else lit "/ 10".

(** The two colour helpers, with the thresholds of [getScoreLabel]
    written out again. *)
Definition getScoreColor (score : number) : jsstring :=
  if ge score num_8 then lit "text-green-600 dark:text-green-400"
  else if ge score num_6 then lit "text-blue-600 dark:text-blue-400"
  else if ge score num_4 then lit "text-yellow-600 dark:text-yellow-400"
  else lit "text-red-600 dark:text-red-400".

Definition getScoreBgColor (score : number) : jsstring :=
  if ge score num_8 then lit "bg-green-500/20 border-green-500/30"
  else if ge score num_6 then lit "bg-blue-500/20 border-blue-500/30"
  else if ge score num_4 then lit "bg-yellow-500/20 border-yellow-500/30"
  else lit "bg-red-500/20 border-red-500/30".

(** One card of the sources tab: its number ([index + 1]), the source
    badge, the [Existing Data] badge and the query line. *)
Record source_card := mkSourceCard {
  card_number : nat;
  card_source : jsstring;
  card_existing : bool;
  card_query : jsstring
}.

(** The sources tab: the cards, or the placeholder [No information
    sources available]. *)
Inductive sources_tab :=
  | NoSources
  | SourceCards (cards : list source_card).

Definition source_cards (l : list InformationSource) : list source_card :=
  imap (fun index src =>
          {| card_number := index + 1;
             card_source := source src;
             card_existing := found_existing src;
             card_query := lit "Query: " ++ [34%N] ++ query src ++ [34%N] |})
       l.

(** What the panel shows of a result. Left out: the timestamp badge
    (its text depends on the locale), the stars, the score written
    as text and the raw JSON tab. *)
Record details := mkDetails {
  circle_class : jsstring;          (* getScoreBgColor(score) *)
  text_class : jsstring;            (* getScoreColor(score) *)
  circle_score : option number;     (* the score, or [!] when absent *)
  circle_caption : jsstring;
  title : jsstring;                 (* the heading under the circle *)
  stars_shown : bool;
  shown_name : jsstring;
  shown_searches : number;
  sources_count : nat;
  failure_icon : bool;              (* XCircle rather than CheckCircle *)
  reasoning_title : jsstring;
  reasoning_text : jsstring;
  sources_shown : sources_tab
}.

Inductive view :=
  | Spinner
  | Nothing
  | Details (d : details).

(** [ResultsPanel({ result, loading, onReset })] *)
Definition render (result : option QualificationResult) (loading : bool)
    : view :=
  if loading then Spinner
  else
    match result with
    | None => Nothing
    | Some result =>
        Details
          {| circle_class := getScoreBgColor (score result);
             text_class := getScoreColor (score result);
             circle_score :=
               if hasError result then None else Some (score result);
             circle_caption := caption result;
             title := heading result;
             stars_shown := negb (hasError result);
             shown_name := person_name result;
             shown_searches := or_else (searches_performed result) num_0;
             sources_count := length (information_sources result);
             failure_icon := hasError result;
             reasoning_title :=
               if hasError result then lit "Error Details"
               else lit "Qualification Assessment";
             reasoning_text :=
               if JsString.truthy (qualification_reasoning result)
               then qualification_reasoning result
               else lit "No reasoning provided.";
             sources_shown :=
               match information_sources result with
               | [] => NoSources
               | _ :: _ => SourceCards (source_cards (information_sources result))
               end |}
    end.

End ResultsPanel.
Import ResultsPanel.

(* ================================================================== *)
(** * App *)
(* ================================================================== *)

Module App.

(** The two [useState] cells of [App]. *)
Record AppState := mkAppState {
  result : option QualificationResult;
  loading : bool
}.

Definition idle : AppState := {| result := None; loading := false |}.

Definition handleQualification (newResult : QualificationResult)
    (s : AppState) : AppState :=
  {| result := Some newResult; loading := loading s |}.

Definition handleLoadingChange (isLoading : bool) (s : AppState) : AppState :=
  {| result := result s; loading := isLoading |}.

Definition onReset (s : AppState) : AppState :=
  {| result := None; loading := false |}.

(** What [App] puts under the header: the hero section with the form,
    or the results panel. *)
Inductive screen :=
  | FormScreen
  | ResultsScreen (v : view).

Definition render (s : AppState) : screen :=
  if negb (bool_decide (is_Some (result s))) && negb (loading s)
  then FormScreen
  else ResultsScreen (ResultsPanel.render (result s) (loading s)).

(** The form is given [handleQualification] as [onResult] and
    [handleLoadingChange] as [onLoadingChange]; what else the handler
    does leaves [App] as it is. *)
Definition receive (s : AppState) (e : event) : AppState :=
  match e with
  | OnResult r => handleQualification r s
  | OnLoadingChange b => handleLoadingChange b s
  | PreventDefault | Fetch _ | ConsoleError _ _ => s
  end.

(** [App] after the events of a run, in order. *)
Definition after (s : AppState) (tr : list event) : AppState :=
  foldl receive s tr.

End App.

(* ================================================================== *)
(** * What a run of [handleSubmit] shows *)
(* ================================================================== *)

(** The requests sent, the results delivered and the loading signals
    given during a run, each in order. *)
Definition fetched (tr : list event) : list request :=
  omap (fun e => match e with Fetch req => Some req | _ => None end) tr.

Definition delivered (tr : list event) : list QualificationResult :=
  omap (fun e => match e with OnResult r => Some r | _ => None end) tr.

Definition signalled (tr : list event) : list bool :=
  omap (fun e => match e with OnLoadingChange b => Some b | _ => None end) tr.

Definition body_person_name (b : json_body) : jsstring :=
  match b with
  | Body_url person_name _ => person_name
  | Body_details person_name _ => person_name
  end.

(** The request written in each branch of [handleSubmit]. *)
Definition url_request (st : FormState) : request :=
  {| url := lit "http://localhost:8000/qualify-from-url";
     method := lit "POST";
     headers := json_headers;
     body := Body_url (personName st) (eventUrl st) |}.

Definition manual_request (st : FormState) : request :=
  {| url := lit "http://localhost:8000/qualify";
     method := lit "POST";
     headers := json_headers;
     body :=
       Body_details (personName st)
         {| name := name (eventDetails st);
            type := type (eventDetails st);
            requirements :=
              filter (fun req => trim req ≠ [])
                     (requirements (eventDetails st));
            audience := audience (eventDetails st);
            format := format (eventDetails st) |} |}.

Definition request_sent (st : FormState) : request :=
  if useManualDetails st then manual_request st else url_request st.

(** The result built in the [catch] clause for the message [msg]. *)
Definition synthesized (st : FormState) (w : world) (msg : jsstring)
    : QualificationResult :=
  {| person_name := personName st;
     qualification_score := num_0;
     qualification_reasoning := lit "Error occurred: " ++ msg;
     searches_performed := num_0;
     information_sources := [];
     timestamp := clock w;
     error := Some msg |}.

(** What the [catch] clause does with the value [t] it receives. *)
Definition recovery (st : FormState) (w : world) (t : thrown) : list event :=
  [ConsoleError (lit "Error:") t; OnResult (synthesized st w (message_of t))].

(** What follows the [fetch] call inside the [try] statement, by the
    way the call ended. *)
Definition after_fetch (st : FormState) (w : world)
    (c : completion Response) : list event :=
  match c with
  | Throw t => recovery st w t
  | Normal response =>
      if ok response then
        match json_result response with
        | Normal result => [OnResult result]
        | Throw t => recovery st w t
        end
      else recovery st w (JsError (http_error_message (status response)))
  end.

(** The claim of the specification on the submitted requirements, in
    its own words: blank entries are removed, the others are kept in
    their order. *)
Inductive blanks_removed : list jsstring -> list jsstring -> Prop :=
  | blanks_removed_nil : blanks_removed [] []
  | blanks_removed_drop req l l' :
      trim req = [] -> blanks_removed l l' -> blanks_removed (req :: l) l'
  | blanks_removed_keep req l l' :
      trim req ≠ [] -> blanks_removed l l' ->
      blanks_removed (req :: l) (req :: l').

(** The combined validity predicate of the specification. *)
Definition isPersonValid (person : jsstring) : Prop := trim person ≠ [].
Definition isUrlModeValid (eventUrl : jsstring) : Prop := trim eventUrl ≠ [].
Definition isManualModeValid (details : EventDetails) : Prop :=
  trim (name details) ≠ [].

Definition submit_enabled (st : FormState) : Prop :=
  isPersonValid (personName st)
  /\ ((useManualDetails st = false /\ isUrlModeValid (eventUrl st))
      \/ (useManualDetails st = true /\ isManualModeValid (eventDetails st))).

(* ================================================================== *)
(** * Sample inputs *)
(* ================================================================== *)

Module Samples.

(** URL mode, ready to submit. *)
Definition st_jane : FormState :=
  {| personName := lit "Jane Doe";
     eventUrl := lit "https://luma.com/x";
     useManualDetails := false;
     eventDetails := eventDetails initial;
     activeTab := lit "event" |}.

(** The same with white space around the name. *)
Definition st_padded : FormState :=
  {| personName := lit "  Jane Doe ";
     eventUrl := lit "https://luma.com/x";
     useManualDetails := false;
     eventDetails := eventDetails initial;
     activeTab := lit "event" |}.

(** Manual mode, with blank requirements among the others. *)
Definition st_manual : FormState :=
  {| personName := lit "Jane Doe";
     eventUrl := [];
     useManualDetails := true;
     eventDetails :=
       {| name := lit "AI Conference";
          type := lit "Technical Conference";
          requirements := [[]; lit "a"; lit "  "; lit "b"];
          audience := lit "ML engineers";
          format := lit "talk" |};
     activeTab := lit "event" |}.

Definition noon : jsstring := lit "2025-01-01T12:00:00.000Z".

(** The service answers 500 with a body that is not JSON. *)
Definition w_500 : world :=
  {| network := fun _ =>
       Normal {| status := 500;
                 json_result := Throw (JsError (lit "Unexpected token")) |};
     clock := noon |}.

(** The service cannot be reached. *)
Definition w_down : world :=
  {| network := fun _ => Throw (JsError (lit "fetch failed"));
     clock := noon |}.

(** A result carrying an empty error string next to a high score. *)
Definition r_empty_error : QualificationResult :=
  {| person_name := lit "Jane Doe";
     qualification_score := num_9;
     qualification_reasoning := lit "Strong match";
     searches_performed := num_4;
     information_sources := [];
     timestamp := noon;
     error := Some [] |}.

(** A result carrying an error message next to a high score. *)
Definition r_error : QualificationResult :=
  {| person_name := lit "Jane Doe";
     qualification_score := num_9;
     qualification_reasoning := lit "Error occurred: fetch failed";
     searches_performed := num_0;
     information_sources := [];
     timestamp := noon;
     error := Some (lit "fetch failed") |}.

End Samples.
Import Samples.

Module Replies.

(** The service answers 200 with a result of its own. *)
Definition w_ok : world :=
  {| network := fun _ =>
       Normal {| status := 200; json_result := Normal r_empty_error |};
     clock := noon |}.

(** Two answers 404, one with a body that parses, one without. *)
Definition w_404_json : world :=
  {| network := fun _ =>
       Normal {| status := 404; json_result := Normal r_error |};
     clock := noon |}.

Definition w_404_text : world :=
  {| network := fun _ =>
       Normal {| status := 404;
                 json_result := Throw (JsError (lit "Unexpected token")) |};
     clock := noon |}.

(** The call fails with an [Error] whose message is empty. *)
Definition w_silent : world :=
  {| network := fun _ => Throw (JsError []); clock := noon |}.

End Replies.
Import Replies.

(* ================================================================== *)
(** * Scripts of user actions *)
(* ================================================================== *)

(** The actions that change the tab shown. *)
Definition navigates (a : action) : bool :=
  match a with
  | ClickNext | ClickBack | SelectTab _ => true
  | _ => false
  end.

(** The actions that can change whether the form is valid: edits of
    the person name, of the event URL and of the event name, and the
    mode toggle. *)
Definition decides_validity (a : action) : bool :=
  match a with
  | ChangePersonName _ | ChangeEventUrl _ | ChangeName _
  | ToggleManualDetails => true
  | _ => false
  end.

(** What a run wrote with [console.error]. *)
Definition logged (tr : list event) : list (jsstring * thrown) :=
  omap (fun e => match e with
                 | ConsoleError label t => Some (label, t)
                 | _ => None
                 end) tr.

(** The form with its requirements replaced by [r]. *)
Definition set_requirements (r : list jsstring) (st : FormState) : FormState :=
  with_details
    (fun prev =>
       {| name := name prev; type := type prev; requirements := r;
          audience := audience prev; format := format prev |})
    st.



(* ================================================================== *)
(** * Strings: lemmas *)
(* ================================================================== *)

Section Trim.

Lemma trimStart_cases (s : jsstring) :
  trimStart s = []
  \/ exists c s', trimStart s = c :: s' /\ isWhiteSpace c = false.
Proof.
  induction s as [|c s IH]; simpl; [by left|].
  destruct (isWhiteSpace c) eqn:Hc; [exact IH|].
  right. by exists c, s.
Qed.

Lemma trimStart_nil_blank (s : jsstring) : trimStart s = [] <-> blank s.
Proof.
  unfold blank. induction s as [|c s IH]; simpl.
  - split; [constructor | done].
  - destruct (isWhiteSpace c) eqn:Hc.
    + rewrite IH. split; [by constructor | by inversion 1].
    + split; [done | inversion 1; congruence].
Qed.

Lemma blank_reverse (s : jsstring) : blank (reverse s) <-> blank s.
Proof. unfold blank. by rewrite Forall_reverse. Qed.

Lemma trim_nil_blank (s : jsstring) : trim s = [] <-> blank s.
Proof.
  unfold trim, trimEnd. split.
  - intros H. apply (f_equal reverse) in H.
    rewrite reverse_involutive, reverse_nil in H.
    apply trimStart_nil_blank in H. apply (proj1 (blank_reverse _)) in H.
    destruct (trimStart_cases s) as [Hs | (c & s' & Hs & Hc)].
    + by apply trimStart_nil_blank.
    + rewrite Hs in H. unfold blank in H.
      apply Forall_cons_1 in H as [Hw _]. congruence.
  - intros H. apply trimStart_nil_blank in H. by rewrite H.
Qed.

Lemma truthy_trim (s : jsstring) :
  JsString.truthy (trim s) = strict_ne (trim s) [].
Proof.
  unfold strict_ne. destruct (trim s) as [|c t]; cbn [JsString.truthy].
  - symmetry. apply bool_decide_eq_false. intros H. by apply H.
  - symmetry. by apply bool_decide_eq_true.
Qed.

Lemma strict_ne_true (a b : jsstring) : strict_ne a b = true <-> a ≠ b.
Proof. unfold strict_ne. apply bool_decide_eq_true. Qed.

End Trim.

(* ================================================================== *)
(** * [handleSubmit]: the shape of every run *)
(* ================================================================== *)

Section Submission.

Variables (st : FormState) (w : world).

Lemma isFormValid_true : isFormValid st = true <-> submit_enabled st.
Proof.
  unfold isFormValid, submit_enabled, isPersonValid, isUrlModeValid,
    isManualModeValid.
  rewrite andb_true_iff, strict_ne_true.
  destruct (useManualDetails st); rewrite strict_ne_true; intuition congruence.
Qed.

Lemma handleSubmit_invalid :
  isFormValid st = false -> handleSubmit st w = ([PreventDefault], Normal tt).
Proof.
  unfold isFormValid, handleSubmit. rewrite !truthy_trim.
  destruct (strict_ne (trim (personName st)) []); [|done].
  destruct (useManualDetails st); cbn [andb negb]; intros ->; done.
Qed.

Lemma handleSubmit_valid :
  isFormValid st = true ->
  handleSubmit st w =
    (PreventDefault :: OnLoadingChange true :: Fetch (request_sent st)
       :: after_fetch st w (network w (request_sent st))
       ++ [OnLoadingChange false],
     Normal tt).
Proof.
  unfold isFormValid, handleSubmit, request_sent. rewrite !truthy_trim.
  destruct (strict_ne (trim (personName st)) []); [|done].
  destruct (useManualDetails st); cbn [andb negb]; intros ->; cbn [andb negb].
  - match goal with
    | |- context [fetch ?r] => change r with (manual_request st)
    end.
    unfold bind, emit, try_catch_finally, fetch, throw, json, ret,
      toISOString_now, after_fetch, recovery, synthesized.
    destruct (network w (manual_request st)) as [r|t]; [|done].
    destruct (ok r); cbn [negb]; [|done].
    by destruct (json_result r).
  - match goal with
    | |- context [fetch ?r] => change r with (url_request st)
    end.
    unfold bind, emit, try_catch_finally, fetch, throw, json, ret,
      toISOString_now, after_fetch, recovery, synthesized.
    destruct (network w (url_request st)) as [r|t]; [|done].
    destruct (ok r); cbn [negb]; [|done].
    by destruct (json_result r).
Qed.

End Submission.

(* ================================================================== *)
(** * Numbers: lemmas on the comparison *)
(* ================================================================== *)

Section Numbers.

(** Below a positive threshold means not at or above any threshold that
    is at least as large. *)
Lemma lt_below_ge (s : number) (ma mb : positive) (ea eb : Z) :
  le (S754_finite false ma ea) (S754_finite false mb eb) = true ->
  lt s (S754_finite false ma ea) = true ->
  ge s (S754_finite false mb eb) = false.
Proof.
  unfold le, lt, ge, SFleb, SFltb.
  destruct s as [sg|sg| |sg m e]; cbn [SFcompare];
    try destruct sg; try done.
  change (Pos.compare_cont Eq) with Pos.compare.
  destruct (Z.compare_spec ea eb), (Z.compare_spec e ea),
    (Z.compare_spec eb e); try done; try lia; subst.
  destruct (Pos.compare_spec ma mb), (Pos.compare_spec m ma),
    (Pos.compare_spec mb m); try done; lia.
Qed.

(** The same for thresholds given by name. *)
Lemma below_threshold (s a b : number) (ma mb : positive) (ea eb : Z) :
  a = S754_finite false ma ea ->
  b = S754_finite false mb eb ->
  le a b = true ->
  lt s a = true ->
  ge s b = false.
Proof. intros -> ->. apply lt_below_ge. Qed.

(** Replacing a falsy score by [0] does not change its band. *)
Lemma getScoreLabel_or_zero (s : number) :
  getScoreLabel (or_else s num_0) = getScoreLabel s.
Proof. by destruct s as [[]|[]| |[] m e]. Qed.

End Numbers.

(* ================================================================== *)
(** * Requirement edits: lemmas *)
(* ================================================================== *)

Section Requirements.

Context {A : Type}.

Lemma filter_from_delete (index start : nat) (l : list A) :
  filter_from (fun _ i => negb (i =? index)) start l =
    if decide (index < start) then l else delete (index - start) l.
Proof.
  revert start. induction l as [|x l IH]; intros start; cbn [filter_from].
  - by case_decide.
  - rewrite IH. destruct (Nat.eqb_spec start index) as [->|Hne]; cbn [negb].
    + rewrite decide_True by lia. rewrite decide_False by lia.
      by rewrite Nat.sub_diag.
    + repeat case_decide; try lia; [done|].
      replace (index - start) with (S (index - S start)) by lia. done.
Qed.

(** [l.filter((_, i) => i !== index)] removes the entry at [index]. *)
Lemma filter_index_delete (index : nat) (l : list A) :
  filter_index (fun _ i => negb (i =? index)) l = delete index l.
Proof.
  unfold filter_index. rewrite filter_from_delete.
  rewrite decide_False by lia. by rewrite Nat.sub_0_r.
Qed.

(** [l.map((x, i) => i === index ? value : x)] writes the entry at
    [index] and nothing else; out of range it changes nothing. *)
Lemma imap_insert (index : nat) (value : A) (l : list A) :
  imap (fun i x => if i =? index then value else x) l = <[index:=value]> l.
Proof.
  apply list_eq. intros j. rewrite list_lookup_imap, list_lookup_insert.
  destruct (l !! j) as [x|] eqn:Hj; cbn [fmap option_fmap option_map].
  - apply lookup_lt_Some in Hj.
    destruct (Nat.eqb_spec j index) as [->|Hne].
    + by rewrite decide_True by done.
    + by rewrite decide_False by (intros [? _]; congruence).
  - apply lookup_ge_None in Hj.
    by rewrite decide_False by (intros [-> ?]; lia).
Qed.

End Requirements.

Section FormInvariant.

Lemma requirements_removeRequirement (index : nat) (prev : EventDetails) :
  requirements (removeRequirement index prev) =
    delete index (requirements prev).
Proof. apply filter_index_delete. Qed.

Lemma requirements_updateRequirement (index : nat) (value : jsstring)
    (prev : EventDetails) :
  requirements (updateRequirement index value prev) =
    <[index:=value]> (requirements prev).
Proof. apply imap_insert. Qed.

Lemma step_keeps_one_requirement (st : FormState) (a : action) :
  1 <= length (requirements (eventDetails st)) ->
  1 <= length (requirements (eventDetails (step st a))).
Proof.
  intros Hst. unfold step.
  destruct (available a st) eqn:Hav; [|done].
  destruct a; cbn [handle with_details setActiveTab eventDetails requirements];
    try done.
  - cbn [addRequirement requirements]. rewrite length_app. cbn [length]. lia.
  - rewrite requirements_removeRequirement.
    cbn [available] in Hav.
    apply andb_true_iff in Hav as [Hav Hlen].
    apply andb_true_iff in Hav as [_ Hidx].
    apply Nat.ltb_lt in Hlen, Hidx.
    rewrite length_delete by (by apply lookup_lt_is_Some). lia.
  - rewrite requirements_updateRequirement, length_insert. done.
Qed.

Lemma reachable_run (actions : list action) (st : FormState) :
  reachable st -> reachable (run st actions).
Proof.
  unfold run. revert st.
  induction actions as [|a actions IH]; intros st Hst; cbn [foldl]; [done|].
  apply IH. by constructor.
Qed.

(** [Next] does nothing while the trimmed person name is empty. *)
Lemma next_refused (st : FormState) :
  trim (personName st) = [] -> step st ClickNext = st.
Proof. unfold step. cbn [available]. unfold next_disabled. by intros ->. Qed.

End FormInvariant.

(* ================================================================== *)
(** * Submission: failed outcomes *)
(* ================================================================== *)

Lemma includes_middle (pre sub : jsstring) : includes (pre ++ sub) sub.
Proof. exists pre, []. by rewrite app_nil_r. Qed.

Lemma delivered_valid (st : FormState) (w : world) :
  isFormValid st = true ->
  delivered (handleSubmit st w).1 =
    delivered (after_fetch st w (network w (request_sent st))).
Proof.
  intros Hv. rewrite (handleSubmit_valid st w Hv). cbn [fst].
  unfold delivered. cbn [omap list_omap]. rewrite omap_app. cbn [omap list_omap].
  by rewrite app_nil_r.
Qed.

(** C1. When the call of a submission fails (the response is not ok,
    the call itself fails, or the body cannot be parsed), the handler
    ends normally and delivers exactly one result, built on the spot:
    its [error] is the message with the status code in it for a
    response that is not ok, the message of the failure when the value
    caught is an [Error], and ["Unknown error"] when it is not; its
    score and search count are [0], its sources are empty and its
    timestamp is the time read at that moment. *)
Theorem C1_failed_outcome_normalized (st : FormState) (w : world) :
  isFormValid st = true ->
  (handleSubmit st w).2 = Normal tt
  /\ length (delivered (handleSubmit st w).1) = 1
  /\ (forall response,
        network w (request_sent st) = Normal response ->
        ok response = false ->
        delivered (handleSubmit st w).1 =
          [synthesized st w (lit "HTTP error! status: " ++ ofN (status response))]
        /\ includes (lit "HTTP error! status: " ++ ofN (status response))
                    (ofN (status response)))
  /\ (forall message,
        network w (request_sent st) = Throw (JsError message) ->
        delivered (handleSubmit st w).1 = [synthesized st w message])
  /\ (network w (request_sent st) = Throw NotAnError ->
        delivered (handleSubmit st w).1 =
          [synthesized st w (lit "Unknown error")])
  /\ (forall response message,
        network w (request_sent st) = Normal response ->
        ok response = true ->
        json_result response = Throw (JsError message) ->
        delivered (handleSubmit st w).1 = [synthesized st w message])
  /\ (forall response,
        network w (request_sent st) = Normal response ->
        ok response = true ->
        json_result response = Throw NotAnError ->
        delivered (handleSubmit st w).1 =
          [synthesized st w (lit "Unknown error")])
  /\ (forall msg,
        synthesized st w msg =
          {| person_name := personName st;
             qualification_score := S754_zero false;
             qualification_reasoning := lit "Error occurred: " ++ msg;
             searches_performed := S754_zero false;
             information_sources := [];
             timestamp := clock w;
             error := Some msg |}).
Proof.
  intros Hv. rewrite (delivered_valid st w Hv).
  split; [by rewrite (handleSubmit_valid st w Hv)|].
  split.
  { unfold after_fetch. destruct (network w (request_sent st)) as [r|t]; [|done].
    destruct (ok r); [|done]. by destruct (json_result r). }
  split.
  { intros response -> Hok. cbn [after_fetch]. rewrite Hok.
    split; [done | apply includes_middle]. }
  split; [by intros message ->|].
  split; [by intros ->|].
  split.
  { intros response message -> Hok Hjson. cbn [after_fetch].
    by rewrite Hok, Hjson. }
  split; [|done].
  intros response -> Hok Hjson. cbn [after_fetch]. by rewrite Hok, Hjson.
Qed.

(** A 500 answer gives an error that reads ["HTTP error! status: 500"]. *)
Lemma C1_failed_outcome_normalized_witness :
  delivered (handleSubmit st_jane w_500).1 =
    [synthesized st_jane w_500 (lit "HTTP error! status: 500")]
  /\ includes (lit "HTTP error! status: 500") (lit "500").
Proof.
  destruct (C1_failed_outcome_normalized st_jane w_500 eq_refl)
    as (_ & _ & Hhttp & _).
  exact (Hhttp _ eq_refl eq_refl).
Defined.

(** The transport failing with the message ["fetch failed"] gives that
    message as the error. *)
Example fetch_failed_error :
  error <$> delivered (handleSubmit st_jane w_down).1 =
    [Some (lit "fetch failed")].
Proof. reflexivity. Qed.

(* ================================================================== *)
(** * Submission: validation and the request sent *)
(* ================================================================== *)

Lemma fetched_valid (st : FormState) (w : world) :
  isFormValid st = true ->
  fetched (handleSubmit st w).1 = [request_sent st].
Proof.
  intros Hv. rewrite (handleSubmit_valid st w Hv). cbn [fst].
  unfold fetched. cbn [omap list_omap]. f_equal.
  rewrite omap_app. cbn [omap list_omap]. rewrite app_nil_r.
  unfold after_fetch, recovery.
  destruct (network w (request_sent st)) as [r|t]; [|done].
  destruct (ok r); [|done]. by destruct (json_result r).
Qed.

(** C2. A submission calls the service exactly when the person name is
    not blank and the field of the active mode (the event name in
    manual mode, the event URL in URL mode) is not blank; this is what
    [isFormValid] computes. Otherwise the handler returns at once: no
    request, no loading signal, no result. *)
Theorem C2_network_call_iff_valid (st : FormState) (w : world) :
  (isFormValid st = true <->
     trim (personName st) ≠ []
     /\ (if useManualDetails st
         then trim (name (eventDetails st)) ≠ []
         else trim (eventUrl st) ≠ []))
  /\ ((exists req, Fetch req ∈ (handleSubmit st w).1) <->
        isFormValid st = true)
  /\ (isFormValid st = false ->
        handleSubmit st w = ([PreventDefault], Normal tt)
        /\ fetched (handleSubmit st w).1 = []
        /\ signalled (handleSubmit st w).1 = []
        /\ delivered (handleSubmit st w).1 = []).
Proof.
  split; [|split].
  - rewrite isFormValid_true.
    unfold submit_enabled, isPersonValid, isUrlModeValid, isManualModeValid.
    destruct (useManualDetails st); intuition congruence.
  - split.
    + intros [req Hreq]. destruct (isFormValid st) eqn:Hv; [done|].
      rewrite (handleSubmit_invalid st w Hv) in Hreq. cbn [fst] in Hreq.
      apply list_elem_of_singleton in Hreq. discriminate.
    + intros Hv. exists (request_sent st).
      rewrite (handleSubmit_valid st w Hv). cbn [fst].
      do 2 apply list_elem_of_further. apply list_elem_of_here.
  - intros Hv. by rewrite (handleSubmit_invalid st w Hv).
Qed.

(** With an empty form, submitting does nothing but cancel the default
    action of the browser. *)
Lemma C2_network_call_iff_valid_witness :
  handleSubmit initial w_down = ([PreventDefault], Normal tt)
  /\ fetched (handleSubmit initial w_down).1 = []
  /\ signalled (handleSubmit initial w_down).1 = []
  /\ delivered (handleSubmit initial w_down).1 = [].
Proof.
  destruct (C2_network_call_iff_valid initial w_down) as (_ & _ & Hinv).
  exact (Hinv eq_refl).
Defined.

Lemma blanks_removed_filter (l l' : list jsstring) :
  blanks_removed l l' <-> l' = filter (fun req => trim req ≠ []) l.
Proof.
  split.
  - induction 1 as [|req l l' Hb _ IH|req l l' Hb _ IH].
    + done.
    + by rewrite filter_cons_False by (by intros ?).
    + rewrite filter_cons_True by done. by f_equal.
  - intros ->. induction l as [|req l IH].
    + constructor.
    + destruct (decide (trim req = [])) as [Hb|Hb].
      * rewrite filter_cons_False by (by intros ?). by constructor.
      * rewrite filter_cons_True by done. by constructor.
Qed.

(** C3. In manual mode the request carries the event details with the
    requirements that are blank after trimming removed and the others
    kept in their order; name, type, audience and format are sent as
    they are. *)
Theorem C3_manual_requirements_filtered (st : FormState) (w : world) :
  isFormValid st = true ->
  useManualDetails st = true ->
  exists req details,
    fetched (handleSubmit st w).1 = [req]
    /\ body req = Body_details (personName st) details
    /\ requirements details =
         filter (fun r => trim r ≠ []) (requirements (eventDetails st))
    /\ (forall kept,
          blanks_removed (requirements (eventDetails st)) kept <->
          kept = requirements details)
    /\ name details = name (eventDetails st)
    /\ type details = type (eventDetails st)
    /\ audience details = audience (eventDetails st)
    /\ format details = format (eventDetails st).
Proof.
  intros Hv Hm. eexists _, _.
  split; [by apply fetched_valid|].
  unfold request_sent. rewrite Hm. cbn [manual_request body].
  split; [reflexivity|]. cbn [requirements name type audience format].
  split; [done|]. split; [apply blanks_removed_filter | done].
Qed.

(** An empty requirement, ["a"], two spaces and ["b"] are sent as
    ["a"] and ["b"]. *)
Lemma C3_manual_requirements_filtered_witness :
  exists req details,
    fetched (handleSubmit st_manual w_down).1 = [req]
    /\ body req = Body_details (lit "Jane Doe") details
    /\ requirements details = [lit "a"; lit "b"].
Proof.
  destruct (C3_manual_requirements_filtered st_manual w_down eq_refl eq_refl)
    as (req & details & Hf & Hb & Hr & _).
  exists req, details. split; [exact Hf|]. split; [exact Hb|].
  rewrite Hr. reflexivity.
Defined.

(** C4. The mode alone selects the endpoint and the shape of the body:
    URL mode posts [{ person_name, event_url }] to [/qualify-from-url],
    manual mode posts [{ person_name, event_details }] to [/qualify]. *)
Theorem C4_mode_selects_endpoint (st : FormState) (w : world) :
  isFormValid st = true ->
  (useManualDetails st = false ->
     fetched (handleSubmit st w).1 =
       [{| url := lit "http://localhost:8000" ++ lit "/qualify-from-url";
           method := lit "POST";
           headers := [(lit "Content-Type", lit "application/json")];
           body := Body_url (personName st) (eventUrl st) |}])
  /\ (useManualDetails st = true ->
        exists details,
          fetched (handleSubmit st w).1 =
            [{| url := lit "http://localhost:8000" ++ lit "/qualify";
                method := lit "POST";
                headers := [(lit "Content-Type", lit "application/json")];
                body := Body_details (personName st) details |}]).
Proof.
  intros Hv. rewrite (fetched_valid st w Hv). unfold request_sent.
  split; intros ->; [done|]. by eexists.
Qed.

(** Jane Doe with the URL [https://luma.com/x]. *)
Lemma C4_mode_selects_endpoint_witness :
  fetched (handleSubmit st_jane w_down).1 =
    [{| url := lit "http://localhost:8000/qualify-from-url";
        method := lit "POST";
        headers := [(lit "Content-Type", lit "application/json")];
        body := Body_url (lit "Jane Doe") (lit "https://luma.com/x") |}].
Proof.
  destruct (C4_mode_selects_endpoint st_jane w_down eq_refl) as [Hurl _].
  exact (Hurl eq_refl).
Defined.

(** C10. The person name goes into the request as typed: validation
    trims a copy to test it, the request carries the original. *)
Theorem C10_person_name_verbatim (st : FormState) (w : world) :
  isFormValid st = true ->
  exists req,
    fetched (handleSubmit st w).1 = [req]
    /\ body_person_name (body req) = personName st.
Proof.
  intros Hv. exists (request_sent st).
  split; [by apply fetched_valid|].
  unfold request_sent. by destruct (useManualDetails st).
Qed.

(** The name ["  Jane Doe "] passes validation and is sent with its
    spaces. *)
Lemma C10_person_name_verbatim_witness :
  isFormValid st_padded = true
  /\ exists req,
       fetched (handleSubmit st_padded w_down).1 = [req]
       /\ body_person_name (body req) = lit "  Jane Doe ".
Proof.
  split; [reflexivity|].
  exact (C10_person_name_verbatim st_padded w_down eq_refl).
Defined.

(* ================================================================== *)
(** * Results: bands and the failure label *)
(* ================================================================== *)

(** The constants are the doubles that the literals of the source and
    of the examples denote. *)
Example literals_are_doubles :
  Prim2SF 0%float = num_0 /\ Prim2SF 4%float = num_4
  /\ Prim2SF 6%float = num_6 /\ Prim2SF 8%float = num_8
  /\ Prim2SF 9%float = num_9
  /\ Prim2SF 0x1.f333333333333p+1%float = num_3_9
  /\ Prim2SF 0x1.f99999999999ap+2%float = num_7_9.
Proof. repeat split; reflexivity. Qed.

(** [num_3_9] and [num_7_9] are within half a unit in the last place of
    39/10 and 79/10. *)
Example nearest_doubles :
  match num_3_9, num_7_9 with
  | S754_finite false m39 e39, S754_finite false m79 e79 =>
      e39 = (-51)%Z /\ (Z.abs (10 * Z.pos m39 - 39 * 2 ^ 51) <= 5)%Z
      /\ e79 = (-50)%Z /\ (Z.abs (10 * Z.pos m79 - 79 * 2 ^ 50) <= 5)%Z
  | _, _ => False
  end.
Proof. repeat split; vm_compute; discriminate. Qed.

(** C5. The band of a score: [Highly Qualified] from 8 up, [Well
    Qualified] from 6 up to 8 excluded, [Minimally Qualified] from 4 up
    to 6 excluded, [Not Qualified] below 4; so 8, 6 and 4 fall in the
    higher band, 7.9 is [Well Qualified] and 3.9 is [Not Qualified]. *)
Theorem C5_score_bands (s : number) :
  (ge s num_8 = true -> getScoreLabel s = lit "Highly Qualified")
  /\ (ge s num_6 = true -> lt s num_8 = true ->
        getScoreLabel s = lit "Well Qualified")
  /\ (ge s num_4 = true -> lt s num_6 = true ->
        getScoreLabel s = lit "Minimally Qualified")
  /\ (lt s num_4 = true -> getScoreLabel s = lit "Not Qualified")
  /\ getScoreLabel num_8 = lit "Highly Qualified"
  /\ getScoreLabel num_7_9 = lit "Well Qualified"
  /\ getScoreLabel num_6 = lit "Well Qualified"
  /\ getScoreLabel num_4 = lit "Minimally Qualified"
  /\ getScoreLabel num_3_9 = lit "Not Qualified".
Proof.
  unfold getScoreLabel. repeat split; try reflexivity.
  - by intros ->.
  - intros H6 H8.
    by rewrite (below_threshold s num_8 num_8 _ _ _ _ eq_refl eq_refl eq_refl H8),
      H6.
  - intros H4 H6.
    by rewrite (below_threshold s num_6 num_8 _ _ _ _ eq_refl eq_refl eq_refl H6),
      (below_threshold s num_6 num_6 _ _ _ _ eq_refl eq_refl eq_refl H6), H4.
  - intros H4.
    by rewrite (below_threshold s num_4 num_8 _ _ _ _ eq_refl eq_refl eq_refl H4),
      (below_threshold s num_4 num_6 _ _ _ _ eq_refl eq_refl eq_refl H4),
      (below_threshold s num_4 num_4 _ _ _ _ eq_refl eq_refl eq_refl H4).
Qed.

(** A score of 9 is at least 8, hence [Highly Qualified]. *)
Lemma C5_score_bands_witness : getScoreLabel num_9 = lit "Highly Qualified".
Proof.
  destruct (C5_score_bands num_9) as [Hhigh _].
  exact (Hhigh eq_refl).
Defined.

(** C6, as the specification states it, fails: a result whose [error]
    is present but empty, with a score of 9, is headed [Highly
    Qualified], not [Analysis Failed]. *)
Lemma C6_error_present_counterexample :
  error r_empty_error = Some []
  /\ heading r_empty_error = lit "Highly Qualified"
  /\ ~ (error r_empty_error <> None ->
        heading r_empty_error = lit "Analysis Failed").
Proof.
  split; [reflexivity|]. split; [reflexivity|].
  intros H. discriminate H. discriminate.
Qed.

(** C6, amended. A result whose [error] is present and not the empty
    string is shown as a failure whatever its score; a result whose
    [error] is absent or the empty string is shown with the band of
    its score. *)
Theorem C6_error_overrides_band (result : QualificationResult) :
  (forall e, error result = Some e -> e <> [] ->
     heading result = lit "Analysis Failed"
     /\ caption result = lit "Error")
  /\ (error result = None \/ error result = Some [] ->
        heading result = getScoreLabel (qualification_score result)
        /\ heading result = getScoreLabel (score result)
        /\ caption result = lit "/ 10").
Proof.
  unfold heading, caption, hasError, score. split.
  - intros e -> He. by destruct e.
  - intros [-> | ->]; by rewrite getScoreLabel_or_zero.
Qed.

(** An error message next to a score of 9 gives [Analysis Failed]. *)
Lemma C6_error_overrides_band_witness :
  heading r_error = lit "Analysis Failed" /\ caption r_error = lit "Error".
Proof.
  destruct (C6_error_overrides_band r_error) as [Hfail _].
  apply (Hfail (lit "fetch failed")); [reflexivity | discriminate].
Defined.

(* ================================================================== *)
(** * The form: navigation, mode toggle, requirement edits *)
(* ================================================================== *)

(** C7. Moving from the person tab to the event tab is meant to need a
    person name that is not blank, and [Next] is disabled without one;
    but the [Event Details] tab trigger is wired to [setActiveTab] with
    no condition. On the empty form, [Next] does nothing and a click on
    the trigger shows the event tab. *)
Theorem C7_tab_trigger_ignores_person_validity :
  trim (personName initial) = []
  /\ activeTab initial = lit "person"
  /\ step initial ClickNext = initial
  /\ available (SelectTab (lit "event")) initial = true
  /\ activeTab (step initial (SelectTab (lit "event"))) = lit "event"
  /\ reachable (step initial (SelectTab (lit "event"))).
Proof.
  repeat split; try reflexivity. apply reachable_step, reachable_initial.
Qed.

Lemma toggle_twice (st : FormState) :
  step (step st ToggleManualDetails) ToggleManualDetails = st.
Proof.
  destruct st as [p u m d t]. unfold step. cbn. by rewrite negb_involutive.
Qed.

(** C8. Toggling the mode any number of times changes nothing but the
    mode: the URL field, the manual fields, the person name and the
    active tab stay as they are, and the mode is back after an even
    number of toggles; toggling twice gives the very same form state. *)
Theorem C8_toggle_preserves_fields (st : FormState) (n : nat) :
  eventUrl (Nat.iter n (fun s => step s ToggleManualDetails) st) = eventUrl st
  /\ eventDetails (Nat.iter n (fun s => step s ToggleManualDetails) st)
       = eventDetails st
  /\ personName (Nat.iter n (fun s => step s ToggleManualDetails) st)
       = personName st
  /\ activeTab (Nat.iter n (fun s => step s ToggleManualDetails) st)
       = activeTab st
  /\ useManualDetails (Nat.iter n (fun s => step s ToggleManualDetails) st)
       = (if Nat.even n then useManualDetails st
          else negb (useManualDetails st))
  /\ step (step st ToggleManualDetails) ToggleManualDetails = st
  /\ Nat.iter (2 * n) (fun s => step s ToggleManualDetails) st = st.
Proof.
  assert (Hfields : forall k,
    eventUrl (Nat.iter k (fun s => step s ToggleManualDetails) st)
      = eventUrl st
    /\ eventDetails (Nat.iter k (fun s => step s ToggleManualDetails) st)
      = eventDetails st
    /\ personName (Nat.iter k (fun s => step s ToggleManualDetails) st)
      = personName st
    /\ activeTab (Nat.iter k (fun s => step s ToggleManualDetails) st)
      = activeTab st
    /\ useManualDetails (Nat.iter k (fun s => step s ToggleManualDetails) st)
      = (if Nat.even k then useManualDetails st
         else negb (useManualDetails st))).
  { induction k as [|k (IHu & IHd & IHp & IHt & IHm)]; [done|].
    rewrite Nat.iter_succ. unfold step at 1 3 5 7 9.
    cbn [available handle eventUrl eventDetails personName activeTab
         useManualDetails].
    rewrite IHu, IHd, IHp, IHt, IHm. repeat split.
    rewrite Nat.even_succ, <- Nat.negb_even.
    destruct (Nat.even k); [done | by rewrite negb_involutive]. }
  destruct (Hfields n) as (Hu & Hd & Hp & Ht & Hm).
  repeat split; try done.
  - apply toggle_twice.
  - induction n as [|k IH]; [done|].
    replace (2 * S k) with (S (S (2 * k))) by lia.
    rewrite !Nat.iter_succ.
    destruct (Hfields k) as (Hu' & Hd' & Hp' & Ht' & Hm').
    rewrite IH; [apply toggle_twice | done..].
Qed.

(** C9. Every state the form can reach has at least one requirement:
    the remove button is there only when there are at least two, and it
    removes one. An update writes the entry at its index and nothing
    else: the list keeps its length and every other entry, and the
    other fields of the event are untouched. *)
Theorem C9_requirements_never_empty :
  (forall st, reachable st -> 1 <= length (requirements (eventDetails st)))
  /\ (forall st index,
        available (RemoveRequirement index) st = true ->
        2 <= length (requirements (eventDetails st))
        /\ length (requirements (eventDetails (step st (RemoveRequirement index))))
           = length (requirements (eventDetails st)) - 1)
  /\ (forall index value prev,
        requirements (updateRequirement index value prev) =
          <[index:=value]> (requirements prev)
        /\ length (requirements (updateRequirement index value prev)) =
             length (requirements prev)
        /\ (index < length (requirements prev) ->
              requirements (updateRequirement index value prev) !! index =
                Some value)
        /\ (forall j, j <> index ->
              requirements (updateRequirement index value prev) !! j =
                requirements prev !! j)
        /\ name (updateRequirement index value prev) = name prev
        /\ type (updateRequirement index value prev) = type prev
        /\ audience (updateRequirement index value prev) = audience prev
        /\ format (updateRequirement index value prev) = format prev).
Proof.
  split; [|split].
  - induction 1 as [|st a _ IH]; [done|]. by apply step_keeps_one_requirement.
  - intros st index Hav. unfold step. rewrite Hav.
    cbn [available] in Hav.
    apply andb_true_iff in Hav as [Hav Hlen].
    apply andb_true_iff in Hav as [_ Hidx].
    apply Nat.ltb_lt in Hlen, Hidx. split; [lia|].
    cbn [handle with_details eventDetails].
    rewrite requirements_removeRequirement.
    by rewrite length_delete by (by apply lookup_lt_is_Some).
  - intros index value prev. rewrite requirements_updateRequirement.
    split; [done|]. split; [apply length_insert|].
    split; [apply list_lookup_insert_eq|].
    split; [|done]. intros j Hj. by apply list_lookup_insert_ne.
Qed.

(** After adding a requirement and removing two in a row, one is
    left: the second removal finds no button. *)
Lemma C9_requirements_never_empty_witness :
  1 <= length (requirements (eventDetails
         (run initial [ToggleManualDetails; AddRequirement;
                       RemoveRequirement 0; RemoveRequirement 0]))).
Proof.
  destruct C9_requirements_never_empty as [Hinv _].
  apply Hinv. apply reachable_run, reachable_initial.
Defined.

(* ================================================================== *)
(** * Requirement edits: how they act and compose *)
(* ================================================================== *)

Lemma EventDetails_eq (d d' : EventDetails) :
  name d = name d' -> type d = type d' ->
  requirements d = requirements d' ->
  audience d = audience d' -> format d = format d' ->
  d = d'.
Proof. destruct d, d'; cbn. by intros -> -> -> -> ->. Qed.

Lemma delete_out_of_range {A} (i : nat) (l : list A) :
  length l <= i -> delete i l = l.
Proof.
  intros Hi. rewrite delete_take_drop.
  rewrite take_ge by done. rewrite drop_ge by lia. apply app_nil_r.
Qed.

Lemma delete_insert_same {A} (i : nat) (x : A) (l : list A) :
  delete i (<[i:=x]> l) = delete i l.
Proof.
  rewrite !delete_take_drop.
  rewrite take_insert_ge by done. by rewrite drop_insert_lt by lia.
Qed.

(** X1. Removing the requirement at an index that exists takes out
    that entry and no other: the entries before it stay in place, the
    entries after it move up by one, the list is one shorter, and name,
    type, audience and format are untouched. *)
Theorem X1_remove_takes_out_one_entry (index : nat) (prev : EventDetails) :
  index < length (requirements prev) ->
  requirements (removeRequirement index prev) =
    take index (requirements prev) ++ drop (S index) (requirements prev)
  /\ length (requirements (removeRequirement index prev)) =
       length (requirements prev) - 1
  /\ (forall j, j < index ->
        requirements (removeRequirement index prev) !! j =
          requirements prev !! j)
  /\ (forall j, index <= j ->
        requirements (removeRequirement index prev) !! j =
          requirements prev !! S j)
  /\ name (removeRequirement index prev) = name prev
  /\ type (removeRequirement index prev) = type prev
  /\ audience (removeRequirement index prev) = audience prev
  /\ format (removeRequirement index prev) = format prev.
Proof.
  intros Hi. rewrite requirements_removeRequirement.
  split; [apply delete_take_drop|].
  split; [apply length_delete; by apply lookup_lt_is_Some|].
  split; [intros j Hj; by apply list_lookup_delete_lt|].
  split; [intros j Hj; by apply list_lookup_delete_ge | done].
Qed.

Lemma X1_remove_takes_out_one_entry_witness :
  requirements (removeRequirement 1 (eventDetails st_manual)) =
    [[]; lit "  "; lit "b"].
Proof.
  destruct (X1_remove_takes_out_one_entry 1 (eventDetails st_manual))
    as [Heq _]; [cbn; lia|].
  rewrite Heq. reflexivity.
Defined.

(** X2. An index past the end of the list changes nothing, for a
    removal and for an update alike. *)
Theorem X2_edits_out_of_range_do_nothing (index : nat) (value : jsstring)
    (prev : EventDetails) :
  length (requirements prev) <= index ->
  removeRequirement index prev = prev
  /\ updateRequirement index value prev = prev.
Proof.
  intros Hi. split; apply EventDetails_eq; try done.
  - rewrite requirements_removeRequirement. by apply delete_out_of_range.
  - rewrite requirements_updateRequirement. by apply list_insert_ge.
Qed.

Lemma X2_edits_out_of_range_do_nothing_witness :
  removeRequirement 4 (eventDetails st_manual) = eventDetails st_manual
  /\ updateRequirement 4 (lit "c") (eventDetails st_manual)
     = eventDetails st_manual.
Proof.
  apply X2_edits_out_of_range_do_nothing. cbn. lia.
Defined.

(** X3. Adding a requirement puts one empty entry at the end and
    leaves the entries already there where they are; removing that last
    entry again gives back the event details as they were. *)
Theorem X3_add_appends_and_remove_undoes (prev : EventDetails) :
  length (requirements (addRequirement prev)) =
    S (length (requirements prev))
  /\ requirements (addRequirement prev) !! length (requirements prev) =
       Some []
  /\ (forall j, j < length (requirements prev) ->
        requirements (addRequirement prev) !! j = requirements prev !! j)
  /\ removeRequirement (length (requirements prev)) (addRequirement prev)
     = prev.
Proof.
  cbn [addRequirement requirements]. split; [|split; [|split]].
  - rewrite length_app. cbn. lia.
  - by rewrite list_lookup_middle.
  - intros j Hj. by apply lookup_app_l.
  - apply EventDetails_eq; try done.
    rewrite requirements_removeRequirement. cbn [addRequirement requirements].
    rewrite delete_middle. apply app_nil_r.
Qed.

(** X4. Updates compose by index: of two updates of the same entry the
    later one stands, updates of different entries can be made in
    either order, and writing the value an entry already has changes
    nothing. *)
Theorem X4_updates_compose (i j : nat) (u v : jsstring) (prev : EventDetails) :
  updateRequirement i v (updateRequirement i u prev) =
    updateRequirement i v prev
  /\ (i <> j ->
        updateRequirement i v (updateRequirement j u prev) =
          updateRequirement j u (updateRequirement i v prev))
  /\ (requirements prev !! i = Some v -> updateRequirement i v prev = prev).
Proof.
  split; [|split].
  - apply EventDetails_eq; try done.
    rewrite !requirements_updateRequirement. apply list_insert_insert_eq.
  - intros Hij. apply EventDetails_eq; try done.
    rewrite !requirements_updateRequirement.
    by apply list_insert_insert_ne.
  - intros Hv. apply EventDetails_eq; try done.
    rewrite requirements_updateRequirement. by apply list_insert_id.
Qed.

Lemma X4_updates_compose_witness :
  updateRequirement 0 (lit "x")
      (updateRequirement 1 (lit "y") (eventDetails st_manual))
    = updateRequirement 1 (lit "y")
        (updateRequirement 0 (lit "x") (eventDetails st_manual))
  /\ updateRequirement 1 (lit "a") (eventDetails st_manual)
     = eventDetails st_manual.
Proof.
  destruct (X4_updates_compose 0 1 (lit "y") (lit "x") (eventDetails st_manual))
    as (_ & Hcomm & _).
  destruct (X4_updates_compose 1 1 [] (lit "a") (eventDetails st_manual))
    as (_ & _ & Hid).
  split; [apply Hcomm; lia | apply Hid; reflexivity].
Defined.

(** X5. Removing an entry forgets what was last written to it:
    updating a requirement and then removing it is the same as
    removing it. *)
Theorem X5_remove_after_update (index : nat) (value : jsstring)
    (prev : EventDetails) :
  removeRequirement index (updateRequirement index value prev) =
    removeRequirement index prev.
Proof.
  apply EventDetails_eq; try done.
  rewrite !requirements_removeRequirement, requirements_updateRequirement.
  apply delete_insert_same.
Qed.

Lemma X3_add_appends_and_remove_undoes_witness :
  requirements (addRequirement (eventDetails st_manual)) !! 1 =
    requirements (eventDetails st_manual) !! 1.
Proof.
  destruct (X3_add_appends_and_remove_undoes (eventDetails st_manual))
    as (_ & _ & Hkeep & _).
  apply Hkeep. cbn. lia.
Defined.

(* ================================================================== *)
(** * Submission: what a run depends on *)
(* ================================================================== *)

Lemma filter_delete_blank (i : nat) (r : jsstring) (l : list jsstring) :
  l !! i = Some r -> trim r = [] ->
  filter (fun req => trim req ≠ []) (delete i l) =
    filter (fun req => trim req ≠ []) l.
Proof.
  intros Hi Hr. rewrite delete_take_drop.
  rewrite <- (take_drop_middle l i r Hi) at 3.
  rewrite !filter_app. f_equal.
  by rewrite filter_cons_False by (by intros ?).
Qed.

(** An edit of the event details that keeps name, type, audience and
    format and the requirements that are not blank keeps the run. *)
Lemma handleSubmit_with_details (f : EventDetails -> EventDetails)
    (st : FormState) (w : world) :
  name (f (eventDetails st)) = name (eventDetails st) ->
  type (f (eventDetails st)) = type (eventDetails st) ->
  audience (f (eventDetails st)) = audience (eventDetails st) ->
  format (f (eventDetails st)) = format (eventDetails st) ->
  filter (fun req => trim req ≠ []) (requirements (f (eventDetails st)))
    = filter (fun req => trim req ≠ []) (requirements (eventDetails st)) ->
  handleSubmit (with_details f st) w = handleSubmit st w.
Proof.
  intros Hn Ht Ha Hf Hr. unfold handleSubmit, with_details.
  cbn [personName eventUrl useManualDetails eventDetails].
  by rewrite Hn, Ht, Ha, Hf, Hr.
Qed.

(** X6. A submission depends on the person name, the mode and the data
    of the active mode only: in URL mode on the event URL, in manual
    mode on name, type, audience, format and the requirements that are
    not blank. Two forms that agree on these make the same run, whatever
    the event details behind a URL submission, the URL behind a manual
    one, or the tab shown. *)
Theorem X6_run_depends_on_active_mode (st st' : FormState) (w : world) :
  personName st = personName st' ->
  useManualDetails st = useManualDetails st' ->
  (useManualDetails st = false -> eventUrl st = eventUrl st') ->
  (useManualDetails st = true ->
     name (eventDetails st) = name (eventDetails st')
     /\ type (eventDetails st) = type (eventDetails st')
     /\ audience (eventDetails st) = audience (eventDetails st')
     /\ format (eventDetails st) = format (eventDetails st')
     /\ filter (fun req => trim req ≠ []) (requirements (eventDetails st))
        = filter (fun req => trim req ≠ []) (requirements (eventDetails st'))) ->
  handleSubmit st w = handleSubmit st' w.
Proof.
  intros Hp Hm Hurl Hdet. unfold handleSubmit. rewrite <- Hp, <- Hm.
  destruct (useManualDetails st).
  - destruct (Hdet eq_refl) as (Hn & Ht & Ha & Hf & Hr).
    by rewrite <- Hn, <- Ht, <- Ha, <- Hf, <- Hr.
  - by rewrite <- (Hurl eq_refl).
Qed.

(** A URL submission with other event details behind it and another
    tab shown. *)
Lemma X6_run_depends_on_active_mode_witness :
  handleSubmit st_jane w_500 =
    handleSubmit
      {| personName := lit "Jane Doe";
         eventUrl := lit "https://luma.com/x";
         useManualDetails := false;
         eventDetails := eventDetails st_manual;
         activeTab := lit "person" |} w_500.
Proof.
  apply X6_run_depends_on_active_mode;
    [reflexivity | reflexivity | reflexivity | discriminate].
Defined.

(** X7. Requirements that are blank do not show in a submission:
    adding a requirement, or removing or blanking an entry that is
    blank, leaves the run as it is. *)
Theorem X7_blank_requirements_invisible (st : FormState) (w : world)
    (index : nat) (r b : jsstring) :
  handleSubmit (handle AddRequirement st) w = handleSubmit st w
  /\ (requirements (eventDetails st) !! index = Some r ->
      trim r = [] ->
      handleSubmit (handle (RemoveRequirement index) st) w = handleSubmit st w
      /\ (trim b = [] ->
          handleSubmit (handle (UpdateRequirement index b) st) w
          = handleSubmit st w)).
Proof.
  split.
  - apply (handleSubmit_with_details addRequirement); try done.
    cbn [addRequirement requirements].
    rewrite filter_app. rewrite filter_cons_False by (by intros ?).
    by rewrite filter_nil, app_nil_r.
  - intros Hi Hr. split.
    + apply (handleSubmit_with_details (removeRequirement index)); try done.
      rewrite requirements_removeRequirement.
      by apply (filter_delete_blank index r).
    + intros Hb.
      apply (handleSubmit_with_details (updateRequirement index b));
        try done.
      rewrite requirements_updateRequirement.
      rewrite <- (filter_delete_blank index r _ Hi Hr).
      rewrite <- (filter_delete_blank index b (<[index:=b]> _)).
      * by rewrite delete_insert_same.
      * apply list_lookup_insert_eq. by apply lookup_lt_Some in Hi.
      * done.
Qed.

(** On the sample form, dropping the empty first requirement or
    turning it into two spaces changes nothing of the run. *)
Lemma X7_blank_requirements_invisible_witness :
  handleSubmit (handle (RemoveRequirement 0) st_manual) w_500
    = handleSubmit st_manual w_500
  /\ handleSubmit (handle (UpdateRequirement 0 (lit "  ")) st_manual) w_500
     = handleSubmit st_manual w_500.
Proof.
  destruct (X7_blank_requirements_invisible st_manual w_500 0 [] (lit "  "))
    as [_ H].
  destruct (H eq_refl eq_refl) as [Hrem Hupd].
  split; [exact Hrem | exact (Hupd eq_refl)].
Defined.

(* ================================================================== *)
(** * Submission: the order of a run and its outcomes *)
(* ================================================================== *)

(** X8. A submission that passes validation signals loading exactly
    twice, [true] before the one call and [false] as the last thing it
    does, with exactly one result delivered in between, whatever the
    answer of the service. *)
Theorem X8_loading_brackets_the_call (st : FormState) (w : world) :
  isFormValid st = true ->
  signalled (handleSubmit st w).1 = [true; false]
  /\ exists mid,
       (handleSubmit st w).1 =
         PreventDefault :: OnLoadingChange true :: Fetch (request_sent st)
           :: mid ++ [OnLoadingChange false]
       /\ fetched mid = []
       /\ signalled mid = []
       /\ length (delivered mid) = 1.
Proof.
  intros Hv. rewrite (handleSubmit_valid st w Hv). cbn [fst].
  assert (Hmid : fetched (after_fetch st w (network w (request_sent st))) = []
    /\ signalled (after_fetch st w (network w (request_sent st))) = []
    /\ length (delivered (after_fetch st w (network w (request_sent st)))) = 1).
  { unfold after_fetch.
    destruct (network w (request_sent st)) as [r|t]; [|done].
    destruct (ok r); [|done]. by destruct (json_result r). }
  destruct Hmid as (Hf & Hs & Hd). split.
  - unfold signalled in *. cbn [omap list_omap]. rewrite omap_app, Hs. done.
  - by eexists.
Qed.

Lemma X8_loading_brackets_the_call_witness :
  signalled (handleSubmit st_jane w_ok).1 = [true; false].
Proof.
  destruct (X8_loading_brackets_the_call st_jane w_ok eq_refl) as [Hs _].
  exact Hs.
Defined.

(** X9. When the response is ok and its body parses, the parsed body
    is delivered as it is and nothing is logged: the run is the loading
    signal, the call, the result and the end of loading. *)
Theorem X9_success_passed_through (st : FormState) (w : world)
    (response : Response) (result : QualificationResult) :
  isFormValid st = true ->
  network w (request_sent st) = Normal response ->
  ok response = true ->
  json_result response = Normal result ->
  handleSubmit st w =
    ([PreventDefault; OnLoadingChange true; Fetch (request_sent st);
      OnResult result; OnLoadingChange false],
     Normal tt).
Proof.
  intros Hv Hnet Hok Hjson. rewrite (handleSubmit_valid st w Hv), Hnet.
  cbn [after_fetch]. by rewrite Hok, Hjson.
Qed.

(** A result of the service that carries an empty error and a score of
    9 reaches the caller unchanged. *)
Lemma X9_success_passed_through_witness :
  delivered (handleSubmit st_jane w_ok).1 = [r_empty_error].
Proof.
  rewrite (X9_success_passed_through st_jane w_ok _ r_empty_error
             eq_refl eq_refl eq_refl eq_refl).
  reflexivity.
Defined.

(** X10. The body of a response that is not ok is never read: two
    answers with the same status give the same run, whatever their
    bodies. *)
Theorem X10_error_body_never_read (st : FormState) (w w' : world)
    (r r' : Response) :
  isFormValid st = true ->
  clock w = clock w' ->
  network w (request_sent st) = Normal r ->
  network w' (request_sent st) = Normal r' ->
  status r = status r' ->
  ok r = false ->
  handleSubmit st w = handleSubmit st w'.
Proof.
  intros Hv Hclock Hr Hr' Hst Hok.
  assert (Hok' : ok r' = false) by (unfold ok in *; by rewrite <- Hst).
  rewrite (handleSubmit_valid st w Hv), (handleSubmit_valid st w' Hv).
  rewrite Hr, Hr'. cbn [after_fetch]. rewrite Hok, Hok'.
  unfold recovery, synthesized. by rewrite Hst, Hclock.
Qed.

Lemma X10_error_body_never_read_witness :
  handleSubmit st_jane w_404_json = handleSubmit st_jane w_404_text.
Proof.
  apply (X10_error_body_never_read st_jane w_404_json w_404_text
           {| status := 404; json_result := Normal r_error |}
           {| status := 404;
              json_result := Throw (JsError (lit "Unexpected token")) |});
    reflexivity.
Defined.

(** X11. The requirements of a manual submission are sent as typed:
    each one sent is an entry of the form that is not blank, with the
    white space around it kept, and no entry that is not blank is left
    out; a form whose requirements are all blank sends an empty list. *)
Theorem X11_requirements_sent_untrimmed (st : FormState) (w : world) :
  isFormValid st = true ->
  useManualDetails st = true ->
  exists req details,
    fetched (handleSubmit st w).1 = [req]
    /\ body req = Body_details (personName st) details
    /\ (forall r, r ∈ requirements details <->
                  r ∈ requirements (eventDetails st) /\ ~ blank r)
    /\ requirements details `sublist_of` requirements (eventDetails st)
    /\ (Forall blank (requirements (eventDetails st)) ->
        requirements details = []).
Proof.
  intros Hv Hm. eexists _, _. split; [by apply fetched_valid|].
  unfold request_sent. rewrite Hm. cbn [manual_request body requirements].
  split; [done|]. cbn [requirements]. split; [|split].
  - intros r. rewrite list_elem_of_filter, <- trim_nil_blank. tauto.
  - apply sublist_filter.
  - intros Hall. induction Hall as [|r l Hr _ IH]; [done|].
    apply trim_nil_blank in Hr. by rewrite filter_cons_False by (by intros ?).
Qed.

(** With the requirement [ a ] typed between spaces, the spaces are
    sent. *)
Lemma X11_requirements_sent_untrimmed_witness :
  exists req details,
    fetched (handleSubmit
               (handle (UpdateRequirement 1 (lit " a ")) st_manual) w_ok).1
      = [req]
    /\ body req = Body_details (lit "Jane Doe") details
    /\ lit " a " ∈ requirements details.
Proof.
  destruct (X11_requirements_sent_untrimmed
              (handle (UpdateRequirement 1 (lit " a ")) st_manual) w_ok
              eq_refl eq_refl)
    as (req & details & Hf & Hb & Hin & _).
  exists req, details. split; [exact Hf|]. split; [exact Hb|].
  apply Hin. split.
  - cbn. apply list_elem_of_further, list_elem_of_here.
  - intros H. apply trim_nil_blank in H. discriminate H.
Defined.

(** X12. The form is valid exactly when the person name and the field
    of the active mode each hold at least one code unit that is not
    white space; spaces, tabs, line breaks and no-break spaces alone do
    not make a name. *)
Theorem X12_valid_iff_not_blank (st : FormState) :
  (isFormValid st = true <->
     ~ blank (personName st)
     /\ ~ blank (if useManualDetails st then name (eventDetails st)
                 else eventUrl st))
  /\ (blank (personName st) -> submit_disabled st = true)
  /\ (blank (personName st) -> next_disabled st = true).
Proof.
  split; [|split].
  - unfold isFormValid. rewrite andb_true_iff, strict_ne_true.
    destruct (useManualDetails st); rewrite strict_ne_true;
      by rewrite !trim_nil_blank.
  - intros Hb. apply trim_nil_blank in Hb.
    unfold submit_disabled, isFormValid, strict_ne. rewrite Hb.
    by rewrite bool_decide_eq_false_2 by (intros H; by apply H).
  - intros Hb. apply trim_nil_blank in Hb.
    unfold next_disabled. by rewrite Hb.
Qed.

(** A name made of a space, a tab, a line feed and a no-break space
    disables both buttons. *)
Lemma X12_valid_iff_not_blank_witness :
  submit_disabled
    {| personName := [32; 9; 10; 160]%N;
       eventUrl := lit "https://luma.com/x";
       useManualDetails := false;
       eventDetails := eventDetails initial;
       activeTab := lit "person" |} = true.
Proof.
  destruct (X12_valid_iff_not_blank
    {| personName := [32; 9; 10; 160]%N;
       eventUrl := lit "https://luma.com/x";
       useManualDetails := false;
       eventDetails := eventDetails initial;
       activeTab := lit "person" |}) as (_ & Hsub & _).
  apply Hsub. repeat constructor.
Defined.

(* ================================================================== *)
(** * App: what is on screen during and after a run *)
(* ================================================================== *)

Section AppRun.




(** The result and the middle of a run, by the way the call ended. *)
Lemma after_fetch_result (st : FormState) (w : world)
    (c : completion Response) :
  exists r,
    delivered (after_fetch st w c) = [r]
    /\ signalled (after_fetch st w c) = []
    /\ forall s, App.after s (after_fetch st w c) =
                   {| App.result := Some r; App.loading := App.loading s |}.
Proof.
  unfold after_fetch. destruct c as [response|t].
  - destruct (ok response); [destruct (json_result response)|];
      by eexists.
  - by eexists.
Qed.

Lemma app_after_run (st : FormState) (w : world) (s : App.AppState) :
  isFormValid st = true ->
  exists r,
    delivered (handleSubmit st w).1 = [r]
    /\ App.after s (handleSubmit st w).1 =
         {| App.result := Some r; App.loading := false |}.
Proof.
  intros Hv. rewrite (delivered_valid st w Hv).
  rewrite (handleSubmit_valid st w Hv). cbn [fst].
  destruct (after_fetch_result st w (network w (request_sent st)))
    as (r & Hd & _ & Hafter).
  exists r. split; [done|].
  unfold App.after in *. cbn [foldl App.receive]. rewrite foldl_app, Hafter.
  done.
Qed.

End AppRun.



(** X14. A submission that fails validation leaves [App] as it is: the
    form stays on screen, no spinner, no result. *)
Theorem X14_invalid_submit_leaves_app (st : FormState) (w : world)
    (s : App.AppState) :
  isFormValid st = false ->
  App.after s (handleSubmit st w).1 = s
  /\ App.render (App.after App.idle (handleSubmit st w).1) = App.FormScreen.
Proof.
  intros Hv. by rewrite (handleSubmit_invalid st w Hv).
Qed.

Lemma X14_invalid_submit_leaves_app_witness :
  App.render (App.after App.idle (handleSubmit initial w_ok).1)
    = App.FormScreen.
Proof.
  destruct (X14_invalid_submit_leaves_app initial w_ok App.idle eq_refl)
    as [_ H].
  exact H.
Defined.

(* ================================================================== *)
(** * From a failed call to the screen *)
(* ================================================================== *)

(** The panel of a result built in the [catch] clause. *)
Lemma render_synthesized (st : FormState) (w : world) (msg : jsstring) :
  render (Some (synthesized st w msg)) false =
    Details
      {| circle_class := lit "bg-red-500/20 border-red-500/30";
         text_class := lit "text-red-600 dark:text-red-400";
         circle_score := if JsString.truthy msg then None else Some num_0;
         circle_caption :=
           if JsString.truthy msg then lit "Error" else lit "/ 10";
         title :=
           if JsString.truthy msg then lit "Analysis Failed"
           else lit "Not Qualified";
         stars_shown := negb (JsString.truthy msg);
         shown_name := personName st;
         shown_searches := num_0;
         sources_count := 0;
         failure_icon := JsString.truthy msg;
         reasoning_title :=
           if JsString.truthy msg then lit "Error Details"
           else lit "Qualification Assessment";
         reasoning_text := lit "Error occurred: " ++ msg;
         sources_shown := NoSources |}.
Proof. by destruct msg. Qed.

Lemma screen_after_run (st : FormState) (w : world) (r : QualificationResult) :
  isFormValid st = true ->
  delivered (handleSubmit st w).1 = [r] ->
  App.render (App.after App.idle (handleSubmit st w).1) =
    App.ResultsScreen (render (Some r) false).
Proof.
  intros Hv Hr. destruct (app_after_run st w App.idle Hv) as (r' & Hd & Hfin).
  rewrite Hfin. rewrite Hr in Hd. by injection Hd as <-.
Qed.

(** X15. A response that is not ok always ends on a failure panel:
    heading [Analysis Failed], [!] and [Error] in a red circle, the
    cross icon over [Error Details], the text [Error occurred: HTTP
    error! status: N] with the status, the name as typed, no stars, no
    sources. *)
Theorem X15_http_error_on_screen (st : FormState) (w : world)
    (response : Response) :
  isFormValid st = true ->
  network w (request_sent st) = Normal response ->
  ok response = false ->
  exists d,
    App.render (App.after App.idle (handleSubmit st w).1) =
      App.ResultsScreen (Details d)
    /\ title d = lit "Analysis Failed"
    /\ circle_score d = None
    /\ circle_caption d = lit "Error"
    /\ circle_class d = lit "bg-red-500/20 border-red-500/30"
    /\ text_class d = lit "text-red-600 dark:text-red-400"
    /\ failure_icon d = true
    /\ reasoning_title d = lit "Error Details"
    /\ reasoning_text d =
         lit "Error occurred: HTTP error! status: " ++ ofN (status response)
    /\ shown_name d = personName st
    /\ stars_shown d = false
    /\ sources_count d = 0
    /\ sources_shown d = NoSources.
Proof.
  intros Hv Hnet Hok.
  rewrite (screen_after_run st w
             (synthesized st w (http_error_message (status response))) Hv).
  - rewrite render_synthesized. eexists. split; [reflexivity|].
    cbn. repeat split.
  - rewrite (delivered_valid st w Hv), Hnet. cbn [after_fetch].
    by rewrite Hok.
Qed.

Lemma X15_http_error_on_screen_witness :
  exists d,
    App.render (App.after App.idle (handleSubmit st_jane w_404_json).1) =
      App.ResultsScreen (Details d)
    /\ title d = lit "Analysis Failed"
    /\ reasoning_text d = lit "Error occurred: HTTP error! status: 404".
Proof.
  destruct (X15_http_error_on_screen st_jane w_404_json
              {| status := 404; json_result := Normal r_error |}
              eq_refl eq_refl eq_refl)
    as (d & Hs & Ht & _ & _ & _ & _ & _ & _ & Hr & _).
  exists d. split; [exact Hs|]. split; [exact Ht | exact Hr].
Defined.

(** X16. A call that fails by throwing is shown as a failure exactly
    when the message shown is not empty. A value that is not an [Error]
    gets [Unknown error] and the failure panel; an [Error] with an
    empty message ends on the panel of a score of 0, headed [Not
    Qualified], with [/ 10] under the circle and the check icon. *)
Theorem X16_thrown_failure_on_screen (st : FormState) (w : world)
    (t : thrown) :
  isFormValid st = true ->
  network w (request_sent st) = Throw t ->
  exists d,
    App.render (App.after App.idle (handleSubmit st w).1) =
      App.ResultsScreen (Details d)
    /\ (title d = lit "Analysis Failed" <-> message_of t <> [])
    /\ (message_of t <> [] ->
          circle_score d = None /\ circle_caption d = lit "Error"
          /\ failure_icon d = true)
    /\ (message_of t = [] ->
          title d = lit "Not Qualified"
          /\ circle_score d = Some num_0 /\ circle_caption d = lit "/ 10"
          /\ failure_icon d = false /\ stars_shown d = true
          /\ reasoning_text d = lit "Error occurred: ")
    /\ (t = NotAnError ->
          title d = lit "Analysis Failed"
          /\ reasoning_text d = lit "Error occurred: Unknown error").
Proof.
  intros Hv Hnet.
  rewrite (screen_after_run st w (synthesized st w (message_of t)) Hv).
  - rewrite render_synthesized. eexists. split; [reflexivity|].
    cbn [title circle_score circle_caption failure_icon stars_shown
         reasoning_text].
    split; [|split; [|split]].
    + destruct (message_of t); cbn; split; done.
    + by destruct (message_of t).
    + by intros ->.
    + by intros ->.
  - by rewrite (delivered_valid st w Hv), Hnet.
Qed.

Lemma X16_thrown_failure_on_screen_witness :
  exists d,
    App.render (App.after App.idle (handleSubmit st_jane w_silent).1) =
      App.ResultsScreen (Details d)
    /\ title d = lit "Not Qualified"
    /\ circle_caption d = lit "/ 10".
Proof.
  destruct (X16_thrown_failure_on_screen st_jane w_silent (JsError [])
              eq_refl eq_refl)
    as (d & Hs & _ & _ & Hempty & _).
  destruct (Hempty eq_refl) as (Ht & _ & Hc & _).
  exists d. split; [exact Hs|]. split; [exact Ht | exact Hc].
Defined.

(** X17. [App] shows the form exactly when there is no result and
    nothing is loading; otherwise it shows the panel, which is then
    never empty: the spinner while loading, even with a result at hand,
    and the result otherwise. [New Analysis] brings the form back from
    any state. *)
Theorem X17_app_screens (s : App.AppState) :
  (App.render s = App.FormScreen <->
     App.result s = None /\ App.loading s = false)
  /\ App.render s <> App.ResultsScreen Nothing
  /\ (App.loading s = true -> App.render s = App.ResultsScreen Spinner)
  /\ (forall r, App.result s = Some r -> App.loading s = false ->
        exists d, App.render s = App.ResultsScreen (Details d))
  /\ App.render (App.onReset s) = App.FormScreen.
Proof.
  destruct s as [[r|] []]; cbn; repeat split; try done;
    try (by intros []); try (by eexists).
Qed.

Lemma X17_app_screens_witness :
  App.render {| App.result := Some r_error; App.loading := true |} =
    App.ResultsScreen Spinner.
Proof.
  destruct (X17_app_screens
              {| App.result := Some r_error; App.loading := true |})
    as (_ & _ & Hload & _).
  exact (Hload eq_refl).
Defined.

(* ================================================================== *)
(** * ResultsPanel: bands, colours, sources *)
(* ================================================================== *)

Section Bands.

(** The comparison of numbers is transitive. *)
Lemma le_trans (a b c : number) :
  le a b = true -> le b c = true -> le a c = true.
Proof.
  unfold le, SFleb.
  destruct a as [sa|sa| |sa ma ea], b as [sb|sb| |sb mb eb],
    c as [sc|sc| |sc mc ec]; cbn [SFcompare];
    try destruct sa; try destruct sb; try destruct sc; try done;
    change (Pos.compare_cont Eq) with Pos.compare;
    destruct (Z.compare_spec ea eb), (Z.compare_spec eb ec),
      (Z.compare_spec ea ec); try done; try lia; subst;
    destruct (Pos.compare_spec ma mb), (Pos.compare_spec mb mc),
      (Pos.compare_spec ma mc); cbn [CompOpp]; try done; lia.
Qed.

Lemma ge_mono (t a b : number) :
  le a b = true -> ge a t = true -> ge b t = true.
Proof. unfold ge. intros Hab Hta. by apply (le_trans t a b). Qed.

End Bands.

(** X18. The text colour, the circle colour and the label of a score
    always name the same band: green with [Highly Qualified], blue with
    [Well Qualified], yellow with [Minimally Qualified], red with [Not
    Qualified]. *)
Theorem X18_colours_follow_band (s : number) :
  (getScoreLabel s = lit "Highly Qualified"
   /\ getScoreColor s = lit "text-green-600 dark:text-green-400"
   /\ getScoreBgColor s = lit "bg-green-500/20 border-green-500/30")
  \/ (getScoreLabel s = lit "Well Qualified"
      /\ getScoreColor s = lit "text-blue-600 dark:text-blue-400"
      /\ getScoreBgColor s = lit "bg-blue-500/20 border-blue-500/30")
  \/ (getScoreLabel s = lit "Minimally Qualified"
      /\ getScoreColor s = lit "text-yellow-600 dark:text-yellow-400"
      /\ getScoreBgColor s = lit "bg-yellow-500/20 border-yellow-500/30")
  \/ (getScoreLabel s = lit "Not Qualified"
      /\ getScoreColor s = lit "text-red-600 dark:text-red-400"
      /\ getScoreBgColor s = lit "bg-red-500/20 border-red-500/30").
Proof.
  unfold getScoreLabel, getScoreColor, getScoreBgColor.
  destruct (ge s num_8); [by left|].
  destruct (ge s num_6); [by right; left|].
  destruct (ge s num_4); [by right; right; left | by right; right; right].
Qed.

(** X19. A larger score never gets a lower band: when [a <= b], a
    label of [a] at some band means a label of [b] at that band or
    above. *)
Theorem X19_bands_are_monotone (a b : number) :
  le a b = true ->
  (getScoreLabel a = lit "Highly Qualified" ->
     getScoreLabel b = lit "Highly Qualified")
  /\ (getScoreLabel a = lit "Well Qualified" ->
        getScoreLabel b = lit "Well Qualified"
        \/ getScoreLabel b = lit "Highly Qualified")
  /\ (getScoreLabel b = lit "Not Qualified" ->
        getScoreLabel a = lit "Not Qualified")
  /\ (getScoreLabel b = lit "Minimally Qualified" ->
        getScoreLabel a = lit "Minimally Qualified"
        \/ getScoreLabel a = lit "Not Qualified").
Proof.
  intros Hab.
  pose proof (ge_mono num_8 a b Hab) as H8.
  pose proof (ge_mono num_6 a b Hab) as H6.
  pose proof (ge_mono num_4 a b Hab) as H4.
  unfold getScoreLabel.
  destruct (ge a num_8); [rewrite H8 by done|];
    (destruct (ge a num_6); [rewrite ?H6 by done|]);
    (destruct (ge a num_4); [rewrite ?H4 by done|]);
    destruct (ge b num_8); try destruct (ge b num_6);
    try destruct (ge b num_4);
    repeat split; intros; try discriminate; auto.
Qed.

Lemma X19_bands_are_monotone_witness :
  getScoreLabel num_9 = lit "Highly Qualified".
Proof.
  destruct (X19_bands_are_monotone num_8 num_9 eq_refl) as [Hhigh _].
  exact (Hhigh eq_refl).
Defined.

(** X20. Scores that are not numbers of the scale still get a band:
    NaN, both zeros, every negative number and minus infinity are [Not
    Qualified], plus infinity is [Highly Qualified]; the panel reads a
    NaN or zero score as 0. *)
Theorem X20_bands_off_the_scale :
  getScoreLabel S754_nan = lit "Not Qualified"
  /\ (forall sg, getScoreLabel (S754_zero sg) = lit "Not Qualified")
  /\ (forall m e, getScoreLabel (S754_finite true m e) = lit "Not Qualified")
  /\ getScoreLabel (S754_infinity true) = lit "Not Qualified"
  /\ getScoreLabel (S754_infinity false) = lit "Highly Qualified"
  /\ (forall r, JsNumber.truthy (qualification_score r) = false ->
        score r = num_0)
  /\ (forall r, JsNumber.truthy (qualification_score r) = true ->
        score r = qualification_score r).
Proof.
  split; [done|]. split; [by intros []|]. split; [done|].
  split; [done|]. split; [done|].
  split; intros r Hr; unfold score, or_else; by rewrite Hr.
Qed.

(** X21. The sources tab shows the placeholder when there is no
    source, and otherwise one card per source, in the order of the
    result, numbered from 1, with the [Existing Data] badge exactly on
    the sources found in existing data; the count in the tab title is
    the number of sources. *)
Theorem X21_source_cards (result : QualificationResult) :
  exists d,
    render (Some result) false = Details d
    /\ sources_count d = length (information_sources result)
    /\ (information_sources result = [] -> sources_shown d = NoSources)
    /\ (information_sources result <> [] ->
        exists cards,
          sources_shown d = SourceCards cards
          /\ length cards = length (information_sources result)
          /\ forall i src,
               information_sources result !! i = Some src ->
               cards !! i =
                 Some {| card_number := S i;
                         card_source := source src;
                         card_existing := found_existing src;
                         card_query :=
                           lit "Query: " ++ [34%N] ++ query src ++ [34%N] |}).
Proof.
  eexists. split; [reflexivity|]. cbn [sources_count sources_shown].
  split; [done|]. split; [by intros ->|].
  intros Hne. destruct (information_sources result) as [|src0 l] eqn:Hl;
    [done|].
  eexists. split; [reflexivity|]. unfold source_cards.
  split; [apply length_imap|].
  intros i src Hi. rewrite list_lookup_imap, Hi. cbn. by rewrite Nat.add_1_r.
Qed.

Lemma X21_source_cards_witness :
  exists d,
    render (Some r_error) false = Details d
    /\ sources_shown d = NoSources.
Proof.
  destruct (X21_source_cards r_error) as (d & Hd & _ & Hnone & _).
  exists d. split; [exact Hd | exact (Hnone eq_refl)].
Defined.

Lemma X20_bands_off_the_scale_witness :
  score {| person_name := lit "Jane Doe";
           qualification_score := S754_nan;
           qualification_reasoning := [];
           searches_performed := num_0;
           information_sources := [];
           timestamp := noon;
           error := None |} = num_0.
Proof.
  destruct X20_bands_off_the_scale as (_ & _ & _ & _ & _ & Hzero & _).
  apply Hzero. reflexivity.
Defined.

(* ================================================================== *)
(** * The form: which states can be reached *)
(* ================================================================== *)

Section Reachability.




Lemma set_requirements_twice (r r' : list jsstring) (st : FormState) :
  set_requirements r (set_requirements r' st) = set_requirements r st.
Proof. done. Qed.








End Reachability.



(** X23. Navigation and editing do not interfere: [Next], [Back] and
    the tab triggers change nothing but the tab shown, every other
    action leaves the tab as it is; [Back] always shows the person tab
    and [Next], when enabled, the event tab. *)
Theorem X23_navigation_keeps_data (st : FormState) (a : action) :
  (navigates a = true ->
     personName (step st a) = personName st
     /\ eventUrl (step st a) = eventUrl st
     /\ useManualDetails (step st a) = useManualDetails st
     /\ eventDetails (step st a) = eventDetails st)
  /\ (navigates a = false -> activeTab (step st a) = activeTab st)
  /\ activeTab (step st ClickBack) = lit "person"
  /\ (next_disabled st = false ->
      activeTab (step st ClickNext) = lit "event").
Proof.
  unfold step. repeat split.
  - destruct a; try done; by destruct (available _ st).
  - destruct a; try done; by destruct (available _ st).
  - destruct a; try done; by destruct (available _ st).
  - destruct a; try done; by destruct (available _ st).
  - destruct a; try done; by destruct (available _ st).
  - cbn [available]. by intros ->.
Qed.

Lemma X23_navigation_keeps_data_witness :
  activeTab (step st_jane ClickNext) = lit "event"
  /\ eventDetails (step st_manual ClickBack) = eventDetails st_manual.
Proof.
  destruct (X23_navigation_keeps_data st_jane ClickNext) as (_ & _ & _ & Hn).
  destruct (X23_navigation_keeps_data st_manual ClickBack)
    as (Hdata & _).
  split; [apply Hn; reflexivity|].
  destruct (Hdata eq_refl) as (_ & _ & _ & Hd). exact Hd.
Defined.

(* ================================================================== *)
(** * Further properties of a run and of the panel *)
(* ================================================================== *)

(** X24. A run logs with [console.error] exactly when it builds the
    result itself: either the response was ok and parsed, nothing is
    logged and the result of the service is delivered, or one value is
    logged under [Error:] and the result delivered right after it
    carries the message of that value. *)
Theorem X24_logged_iff_synthesized (st : FormState) (w : world) :
  isFormValid st = true ->
  (logged (handleSubmit st w).1 = []
   /\ exists response result,
        network w (request_sent st) = Normal response
        /\ ok response = true
        /\ json_result response = Normal result
        /\ delivered (handleSubmit st w).1 = [result])
  \/ (exists t,
        logged (handleSubmit st w).1 = [(lit "Error:", t)]
        /\ delivered (handleSubmit st w).1 =
             [synthesized st w (message_of t)]
        /\ (handleSubmit st w).1 =
             [PreventDefault; OnLoadingChange true; Fetch (request_sent st);
              ConsoleError (lit "Error:") t;
              OnResult (synthesized st w (message_of t));
              OnLoadingChange false]
        /\ (network w (request_sent st) = Throw t
            \/ exists response,
                 network w (request_sent st) = Normal response
                 /\ (ok response = false
                        /\ t = JsError (http_error_message (status response))
                     \/ ok response = true
                        /\ json_result response = Throw t))).
Proof.
  intros Hv. rewrite (handleSubmit_valid st w Hv). cbn [fst].
  destruct (network w (request_sent st)) as [response|t] eqn:Hnet.
  - cbn [after_fetch]. destruct (ok response) eqn:Hok.
    + destruct (json_result response) as [result|t] eqn:Hjson.
      * left. split; [done|]. by exists response, result.
      * right. exists t. repeat split; try done.
        right. exists response. split; [done|]. by right.
    + right. eexists. repeat split; try done.
      right. exists response. split; [done|]. by left.
  - right. exists t. repeat split; try done. by left.
Qed.

Lemma X24_logged_iff_synthesized_witness :
  logged (handleSubmit st_jane w_ok).1 = []
  /\ logged (handleSubmit st_jane w_down).1 =
       [(lit "Error:", JsError (lit "fetch failed"))].
Proof.
  split.
  - destruct (X24_logged_iff_synthesized st_jane w_ok eq_refl)
      as [[Hnone _] | (t & _ & Hd & _)]; [exact Hnone | discriminate Hd].
  - destruct (X24_logged_iff_synthesized st_jane w_down eq_refl)
      as [(_ & r & res & Hnet & _) | (t & Hlog & _ & _ & Hwhy)].
    + discriminate Hnet.
    + destruct Hwhy as [Hnet | (r & Hnet & _)]; [|discriminate Hnet].
      injection Hnet as <-. exact Hlog.
Defined.

(** X25. The colours of the panel follow the score alone, also on a
    failure: a result that carries an error message and a score of 8 or
    more is headed [Analysis Failed] in the green of [Highly
    Qualified]. *)
Theorem X25_failure_keeps_band_colour (result : QualificationResult)
    (e : jsstring) :
  error result = Some e -> e <> [] ->
  exists d,
    render (Some result) false = Details d
    /\ title d = lit "Analysis Failed"
    /\ text_class d = getScoreColor (qualification_score result)
    /\ circle_class d = getScoreBgColor (qualification_score result)
    /\ (ge (qualification_score result) num_8 = true ->
        text_class d = lit "text-green-600 dark:text-green-400"
        /\ circle_class d = lit "bg-green-500/20 border-green-500/30").
Proof.
  intros He Hne. eexists. split; [reflexivity|].
  cbn [title text_class circle_class].
  assert (Hs : forall s, getScoreColor (or_else s num_0) = getScoreColor s
                         /\ getScoreBgColor (or_else s num_0) = getScoreBgColor s).
  { by intros [[]|[]| |[] m x]. }
  unfold heading, hasError, score. rewrite He.
  destruct (Hs (qualification_score result)) as [-> ->].
  split; [by destruct e|]. split; [done|]. split; [done|].
  intros H8. unfold getScoreColor, getScoreBgColor. by rewrite H8.
Qed.

Lemma X25_failure_keeps_band_colour_witness :
  exists d,
    render (Some r_error) false = Details d
    /\ title d = lit "Analysis Failed"
    /\ text_class d = lit "text-green-600 dark:text-green-400".
Proof.
  destruct (X25_failure_keeps_band_colour r_error (lit "fetch failed")
              eq_refl ltac:(discriminate))
    as (d & Hd & Ht & _ & _ & Hgreen).
  exists d. split; [exact Hd|]. split; [exact Ht|].
  exact (proj1 (Hgreen eq_refl)).
Defined.

(** X26. Whether the form can be submitted, and whether [Next] is
    enabled, changes only with the person name, the event URL, the
    event name and the mode: requirement edits, edits of type, audience
    and format, and navigation leave both as they are. *)
Theorem X26_validity_frame (st : FormState) (a : action) :
  decides_validity a = false ->
  isFormValid (step st a) = isFormValid st
  /\ submit_disabled (step st a) = submit_disabled st
  /\ next_disabled (step st a) = next_disabled st.
Proof.
  intros Ha. unfold submit_disabled, step.
  destruct (available a st); [|done].
  by destruct a.
Qed.

Lemma X26_validity_frame_witness :
  isFormValid (step st_manual (RemoveRequirement 1)) = isFormValid st_manual.
Proof.
  destruct (X26_validity_frame st_manual (RemoveRequirement 1) eq_refl)
    as [Hv _].
  exact Hv.
Defined.
